(** * SplatBridge: [ROSTrainer.setup] and its readiness gate

    A shallow embedding of [src/splatbridge/ros_trainer.py].

    [setup] brings the collaborators of the trainer up in a fixed order and
    then waits, in a polling loop bounded by a wall-clock deadline, until the
    image buffer that a ROS subscriber fills in the background holds enough
    images.  The embedding threads three things through the code:

    - the attributes of the trainer object ([self]);
    - the world outside the function: the monotonic clock, the shared buffer
      count, and the trace of every call made to a collaborator;
    - the three ways a Python function ends: it returns, it raises, or (for
      the [while] loop, which is run with fuel) it has not ended yet.

    Time is in seconds.  A Python float is embedded as the rational it
    denotes, or as one of the infinities, or as not-a-number; arithmetic on
    finite floats is exact in the embedding, its rounding is not modelled. *)

From Stdlib Require Import ZArith QArith Qround List Bool Sorted Lia Lqa.
Import ListNotations.

Local Open Scope Z_scope.

(** ** Python values *)

(** Identity of an object owned by a collaborator (nerfstudio, the viewer). *)
Definition Ref := nat.

(** [Literal["test", "val", "inference"]] *)
Inductive TestMode := mode_test | mode_val | mode_inference.

(** What the local name [status] of [setup] can be bound to: the boolean
    flag of lines 118 and 126, or the [rich.status.Status] object that
    [with CONSOLE.status(...) as status] binds at line 122. *)
Inductive PyVal :=
| PyBool (b : bool)
| PyStatus.

(** Python truth value testing.  [rich.status.Status] defines neither
    [__bool__] nor [__len__], so an instance is true. *)
Definition truthy (v : PyVal) : bool :=
  match v with
  | PyBool b => b
  | PyStatus => true
  end.

(** The texts written to the console, by line of the source. *)
Inductive Msg :=
| LegacyViewerNotSupported      (* l.66  "Legacy Viewer is not supported by SplatBridge!" *)
| WaitingToReceive (n : Z)      (* l.120 "Waiting to recieve {num_msgs_to_start} images..." *)
| ImagesReceived (dl_idx : Z)   (* l.129 "Images received: {dl_idx}" *)
| BufferFilled.                 (* l.142 "Pre-train image buffer filled, starting training!" *)

(** A Python [float]: a finite value, [float('inf')], [float('-inf')] or
    [float('nan')].  The clock only ever gives finite values; [msg_timeout]
    is whatever the configuration holds. *)
Inductive PyFloat :=
| Finite (q : Q)
| PosInf
| NegInf
| NaN.

Coercion Finite : Q >-> PyFloat.
Bind Scope Q_scope with PyFloat.

(** ** Configuration and trainer *)

(** [ROSTrainerConfig(TrainerConfig)].  Of the inherited configuration only
    the two predicates that [setup] branches on are kept, as the booleans
    they return. *)
Record ROSTrainerConfig := mkConfig {
  cfg_msg_timeout : PyFloat;
  cfg_num_msgs_to_start : Z;
  is_viewer_legacy_enabled : bool;
  is_viewer_enabled : bool
}.

(** The dataclass defaults of lines 24 and 26. *)
Definition default_config (legacy viewer : bool) : ROSTrainerConfig :=
  mkConfig 300 10 legacy viewer.

(** The pipeline object: [datamanager.train_dataset] is the handle read at
    line 133.  ([datamanager.train_image_dataloader.current_idx] is shared
    with the subscriber thread and lives in the world, below.) *)
Record Pipeline := mkPipeline {
  pipeline_id : Ref;
  train_dataset : Ref
}.

(** The [ROSViewer] object; [viewer_info] is the banner read at line 81. *)
Record Viewer := mkViewer {
  viewer_id : Ref;
  viewer_info : Ref
}.

(** The attributes of [self].  [None] is an attribute that holds Python's
    [None] or has not been assigned. *)
Record ROSTrainer := mkTrainer {
  config : ROSTrainerConfig;
  local_rank : Z;
  world_size : Z;
  msg_timeout : PyFloat;
  cameras_drawn : list Ref;
  num_msgs_to_start : Z;
  pipeline : option Pipeline;
  optimizers : option Ref;
  viewer_state : option Viewer;
  callbacks : option (list Ref);
  dataset : option Ref
}.

(** [ROSTrainer.__init__] (lines 34-41); the base class stores [config],
    [local_rank] and [world_size]. *)
Definition ROSTrainer_init (cfg : ROSTrainerConfig) (rank wsize : Z) : ROSTrainer :=
  {| config := cfg;
     local_rank := rank;
     world_size := wsize;
     msg_timeout := cfg_msg_timeout cfg;
     cameras_drawn := [];
     num_msgs_to_start := cfg_num_msgs_to_start cfg;
     pipeline := None;
     optimizers := None;
     viewer_state := None;
     callbacks := None;
     dataset := None |}.

Definition set_pipeline (p : Pipeline) (t : ROSTrainer) : ROSTrainer :=
  {| config := config t; local_rank := local_rank t; world_size := world_size t;
     msg_timeout := msg_timeout t; cameras_drawn := cameras_drawn t;
     num_msgs_to_start := num_msgs_to_start t;
     pipeline := Some p; optimizers := optimizers t;
     viewer_state := viewer_state t; callbacks := callbacks t;
     dataset := dataset t |}.

Definition set_optimizers (o : Ref) (t : ROSTrainer) : ROSTrainer :=
  {| config := config t; local_rank := local_rank t; world_size := world_size t;
     msg_timeout := msg_timeout t; cameras_drawn := cameras_drawn t;
     num_msgs_to_start := num_msgs_to_start t;
     pipeline := pipeline t; optimizers := Some o;
     viewer_state := viewer_state t; callbacks := callbacks t;
     dataset := dataset t |}.

Definition set_viewer_state (v : option Viewer) (t : ROSTrainer) : ROSTrainer :=
  {| config := config t; local_rank := local_rank t; world_size := world_size t;
     msg_timeout := msg_timeout t; cameras_drawn := cameras_drawn t;
     num_msgs_to_start := num_msgs_to_start t;
     pipeline := pipeline t; optimizers := optimizers t;
     viewer_state := v; callbacks := callbacks t;
     dataset := dataset t |}.

Definition set_callbacks (c : list Ref) (t : ROSTrainer) : ROSTrainer :=
  {| config := config t; local_rank := local_rank t; world_size := world_size t;
     msg_timeout := msg_timeout t; cameras_drawn := cameras_drawn t;
     num_msgs_to_start := num_msgs_to_start t;
     pipeline := pipeline t; optimizers := optimizers t;
     viewer_state := viewer_state t; callbacks := Some c;
     dataset := dataset t |}.

Definition set_dataset (d : Ref) (t : ROSTrainer) : ROSTrainer :=
  {| config := config t; local_rank := local_rank t; world_size := world_size t;
     msg_timeout := msg_timeout t; cameras_drawn := cameras_drawn t;
     num_msgs_to_start := num_msgs_to_start t;
     pipeline := pipeline t; optimizers := optimizers t;
     viewer_state := viewer_state t; callbacks := callbacks t;
     dataset := Some d |}.

(** ** The world outside [setup] *)

(** The calls [setup] makes into collaborators, in source order. *)
Inductive Step :=
| pipeline_setup            (* l.52  self.config.pipeline.setup(...) *)
| setup_optimizers          (* l.59  self.setup_optimizers() *)
| ros_viewer                (* l.72  ROSViewer(...) *)
| check_viewer_warnings     (* l.83  self._check_viewer_warnings() *)
| load_checkpoint           (* l.85  self._load_checkpoint() *)
| get_training_callbacks    (* l.87  self.pipeline.get_training_callbacks(...) *)
| setup_event_writer        (* l.98  writer.setup_event_writer(...) *)
| setup_local_writer        (* l.106 writer.setup_local_writer(...) *)
| put_config                (* l.111 writer.put_config(...) *)
| setup_profiler.           (* l.114 profiler.setup_profiler(...) *)

(** Everything [setup] does that is visible from outside, in the order it
    does it. *)
Inductive Event :=
| Call (s : Step)
| ConsolePrint (m : Msg)        (* CONSOLE.print *)
| PerfCounter (t : Q)           (* time.perf_counter() returned t *)
| StatusStart                   (* CONSOLE.status("", spinner="dots").__enter__() *)
| StatusUpdate (m : Msg)        (* status.update(status_str) *)
| StatusStop                    (* Status.__exit__ *)
| ReadCurrentIdx (v : Z)        (* ...train_image_dataloader.current_idx was v *)
| Sleep (secs : Q)              (* time.sleep(secs) *)
| ReadTrainDataset.             (* self.pipeline.datamanager.train_dataset *)

(** [now] is what [time.perf_counter()] would return; [current_idx] is the
    count of the image buffer, written by the subscriber thread only;
    [yields] counts the points at which the rest of the process has run. *)
Record World := mkWorld {
  now : Q;
  current_idx : Z;
  yields : nat;
  trace : list Event
}.

(** What the rest of the process does, and what the collaborators return.
    At its [n]-th turn the environment lets [lag n] seconds pass and the
    subscriber thread appends [arrivals n] images. *)
Record Env := mkEnv {
  lag : nat -> Q;
  arrivals : nat -> Z;
  fails : Step -> bool;
  made_pipeline : TestMode -> Pipeline;
  made_optimizers : Ref;
  made_viewer : Viewer;
  made_callbacks : list Ref
}.

(** ** Control: return, raise, or out of fuel *)

Inductive Exn :=
| NameError               (* l.136 "(SplatBridge) ROSTrainer setup() timed out, ..." *)
| AttributeError          (* attribute access on an object that lacks it *)
| Propagated (s : Step).  (* raised inside a collaborator, not caught *)

Inductive Res (A : Type) :=
| Ok (a : A)
| Raise (e : Exn)
| OutOfFuel.
Arguments Ok {A} a.
Arguments Raise {A} e.
Arguments OutOfFuel {A}.

Record St := mkSt {
  self : ROSTrainer;
  world : World
}.

(** A computation keeps the state it reached when it raises: attributes
    assigned before a [raise] stay assigned. *)
Definition M (A : Type) : Type := St -> Res A * St.

Definition ret {A} (a : A) : M A := fun st => (Ok a, st).

Definition bind {A B} (m : M A) (k : A -> M B) : M B :=
  fun st =>
    match m st with
    | (Ok a, st') => k a st'
    | (Raise e, st') => (Raise e, st')
    | (OutOfFuel, st') => (OutOfFuel, st')
    end.

Definition raise {A} (e : Exn) : M A := fun st => (Raise e, st).

Definition out_of_fuel {A} : M A := fun st => (OutOfFuel, st).

Definition get_self : M ROSTrainer := fun st => (Ok (self st), st).

Definition set_self (f : ROSTrainer -> ROSTrainer) : M unit :=
  fun st => (Ok tt, mkSt (f (self st)) (world st)).

(** Reading the clock and the buffer count. *)
Definition get_now : M Q := fun st => (Ok (now (world st)), st).

Definition get_current_idx : M Z := fun st => (Ok (current_idx (world st)), st).

Definition set_world (f : World -> World) : M unit :=
  fun st => (Ok tt, mkSt (self st) (f (world st))).

Declare Scope py_scope.
Delimit Scope py_scope with py.
Notation "x <- m ;; k" := (bind m (fun x => k))
  (at level 61, m at next level, right associativity) : py_scope.
Notation "m ;; k" := (bind m (fun _ => k))
  (at level 61, right associativity) : py_scope.
Local Open Scope py_scope.

(** [a < b] on rationals, as a boolean. *)
Definition Qltb (a b : Q) : bool := negb (Qle_bool b a).

(** [x < y] and [x <= y] on floats, as Python computes them: false as soon
    as an operand is not a number. *)
Definition float_ltb (x y : PyFloat) : bool :=
  match x, y with
  | NaN, _ | _, NaN => false
  | Finite a, Finite b => Qltb a b
  | NegInf, NegInf => false
  | NegInf, _ => true
  | _, NegInf => false
  | PosInf, _ => false
  | Finite _, PosInf => true
  end.

Definition float_leb (x y : PyFloat) : bool :=
  match x, y with
  | NaN, _ | _, NaN => false
  | Finite a, Finite b => Qle_bool a b
  | NegInf, _ => true
  | _, NegInf => false
  | _, PosInf => true
  | PosInf, Finite _ => false
  end.

(** The polling interval of line 131. *)
Definition poll_interval : Q := 1 # 20.

(** The states of the readiness gate. *)
Inductive GateState := WAITING | READY | TIMED_OUT.

Section Setup.

Variable env : Env.

(** With [show_status = true] the code is the source's; with [false] it is
    the source without the [else] branch of lines 128-130, that is, without
    the updates of the status display. *)
Variable show_status : bool.

(** *** Primitives *)

Definition log (e : Event) : M unit :=
  set_world (fun w => mkWorld (now w) (current_idx w) (yields w) (trace w ++ [e])).

(** The rest of the process takes a turn. *)
Definition env_step (w : World) : World :=
  mkWorld (now w + lag env (yields w))%Q
          (current_idx w + arrivals env (yields w))
          (S (yields w))
          (trace w).

Definition yield : M unit := set_world env_step.

(** [time.perf_counter()] *)
Definition perf_counter : M Q :=
  yield ;;
  t <- get_now ;;
  log (PerfCounter t) ;;
  ret t.

(** [time.sleep(secs)]: at least [secs] pass; any more is the lag of the
    environment's next turn. *)
Definition sleep (secs : Q) : M unit :=
  log (Sleep secs) ;;
  set_world (fun w => mkWorld (now w + secs)%Q (current_idx w) (yields w) (trace w)).

(** [CONSOLE.print(m)] *)
Definition console_print (m : Msg) : M unit := log (ConsolePrint m).

(** A call into a collaborator: it takes its time, then returns or raises. *)
Definition call {A} (s : Step) (result : A) : M A :=
  log (Call s) ;;
  yield ;;
  if fails env s then raise (Propagated s) else ret result.

(** [self.pipeline] *)
Definition get_pipeline : M Pipeline :=
  t <- get_self ;;
  match pipeline t with
  | Some p => ret p
  | None => raise AttributeError
  end.

(** [self.pipeline.datamanager.train_image_dataloader.current_idx] *)
Definition read_current_idx : M Z :=
  _ <- get_pipeline ;;
  v <- get_current_idx ;;
  log (ReadCurrentIdx v) ;;
  ret v.

(** [status.update(status_str)]: only a [Status] object has [update]. *)
Definition status_update (status : PyVal) (m : Msg) : M unit :=
  match status with
  | PyStatus => log (StatusUpdate m)
  | PyBool _ => raise AttributeError
  end.

(** [with CONSOLE.status("", spinner="dots") as status: body].  [__enter__]
    returns the [Status] object itself; [__exit__] runs however the body
    ends. *)
Definition with_console_status {A} (body : PyVal -> M A) : M A :=
  log StatusStart ;;
  fun st =>
    let (r, st') := body PyStatus st in
    (r, snd (log StatusStop st')).

(** *** The status check loop (lines 123-131) *)

(** One evaluation of the loop guard and, if it holds, of the loop body.
    The result is the state of the gate and the value of [status]. *)
Definition poll (start : Q) (status : PyVal) : M (GateState * PyVal) :=
  t <- perf_counter ;;
  t_self <- get_self ;;
  if float_ltb (Finite (t - start)) (msg_timeout t_self) then
    dl_idx <- read_current_idx ;;
    if dl_idx >=? num_msgs_to_start t_self - 1 then
      ret (READY, PyBool true)
    else
      (if show_status then status_update status (ImagesReceived dl_idx)
       else ret tt) ;;
      sleep poll_interval ;;
      ret (WAITING, status)
  else
    ret (TIMED_OUT, status).

Fixpoint while_loop (fuel : nat) (start : Q) (status : PyVal)
  : M (GateState * PyVal) :=
  match fuel with
  | O => out_of_fuel
  | S fuel' =>
      r <- poll start status ;;
      match fst r with
      | WAITING => while_loop fuel' start (snd r)
      | _ => ret r
      end
  end.

(** Lines 117-131: the gate proper.  The [status] of line 118 is shadowed
    by the [status] that line 122 binds. *)
Definition status_check_loop (fuel : nat) : M (GateState * PyVal) :=
  start <- perf_counter ;;
  let status := PyBool false in
  t_self <- get_self ;;
  console_print (WaitingToReceive (num_msgs_to_start t_self)) ;;
  with_console_status (fun status => while_loop fuel start status).

(** Lines 116-143. *)
Definition readiness_gate (fuel : nat) : M unit :=
  r <- status_check_loop fuel ;;
  let status := snd r in
  p <- get_pipeline ;;
  log ReadTrainDataset ;;
  set_self (set_dataset (train_dataset p)) ;;
  if negb (truthy status) then raise NameError
  else console_print BufferFilled.

(** *** [ROSTrainer.setup] (lines 43-143) *)

Definition setup (test_mode : TestMode) (fuel : nat) : M unit :=
  p <- call pipeline_setup (made_pipeline env test_mode) ;;
  set_self (set_pipeline p) ;;
  o <- call setup_optimizers (made_optimizers env) ;;
  set_self (set_optimizers o) ;;
  set_self (set_viewer_state None) ;;
  t_self <- get_self ;;
  (if is_viewer_legacy_enabled (config t_self) && (local_rank t_self =? 0)
   then console_print LegacyViewerNotSupported
   else ret tt) ;;
  banner_messages <-
    (if is_viewer_enabled (config t_self) && (local_rank t_self =? 0)
     then v <- call ros_viewer (made_viewer env) ;;
          set_self (set_viewer_state (Some v)) ;;
          ret (Some (viewer_info v))
     else ret None) ;;
  call check_viewer_warnings tt ;;
  call load_checkpoint tt ;;
  c <- call get_training_callbacks (made_callbacks env) ;;
  set_self (set_callbacks c) ;;
  call setup_event_writer tt ;;
  call setup_local_writer banner_messages ;;
  call put_config tt ;;
  call setup_profiler tt ;;
  readiness_gate fuel.

End Setup.


Arguments Qltb : simpl never.
Arguments readiness_gate : simpl never.

(** ** Vocabulary of the properties *)

(** The world as [poll] sees it right after reading the clock. *)
Definition after_clock (env : Env) (w : World) : World :=
  mkWorld (now w + lag env (yields w))%Q
          (current_idx w + arrivals env (yields w))
          (S (yields w))
          (trace w ++ [PerfCounter (now w + lag env (yields w))%Q]).

Definition add_events (evs : list Event) (w : World) : World :=
  mkWorld (now w) (current_idx w) (yields w) (trace w ++ evs).

Definition slept (w : World) : World :=
  mkWorld (now w + poll_interval)%Q (current_idx w) (yields w) (trace w).

(** The readiness condition of line 125. *)
Definition enough (t : ROSTrainer) (dl_idx : Z) : Prop :=
  num_msgs_to_start t - 1 <= dl_idx.

(** The buffer counts a trace shows to have been read. *)
Fixpoint observed (tr : list Event) : list Z :=
  match tr with
  | [] => []
  | ReadCurrentIdx v :: tr' => v :: observed tr'
  | _ :: tr' => observed tr'
  end.

(** The number of [time.sleep] calls in a trace. *)
Fixpoint sleeps (tr : list Event) : nat :=
  match tr with
  | [] => O
  | Sleep _ :: tr' => S (sleeps tr')
  | _ :: tr' => sleeps tr'
  end.

(** The events of [tr'] that come after those of [tr]. *)
Definition since (tr tr' : list Event) : list Event := skipn (length tr) tr'.

(** Images appended by the subscriber thread in the environment's first [n]
    turns. *)
Fixpoint arrived (env : Env) (n : nat) : Z :=
  match n with
  | O => 0
  | S n' => arrived env n' + arrivals env n'
  end.

(** Fuel that lets the loop run to its end when every iteration advances
    the clock by a whole poll interval: one iteration per poll interval that
    fits in the timeout, and one more for the last look at the clock.  With
    [nan] or [-inf] the first look is the last.  With [inf] no amount is
    enough, and the value given here is never used. *)
Definition gate_fuel (timeout : PyFloat) : nat :=
  match timeout with
  | Finite T => S (Z.to_nat (Qceiling (T * 20)))
  | _ => 1
  end.

(** The same when an iteration is only known to advance the clock by
    [delta], be it more or less than the nominal poll interval. *)
Definition fuel_by (delta : Q) (timeout : PyFloat) : nat :=
  match timeout with
  | Finite T =>
      S (Z.to_nat (Qceiling ((T + (poll_interval - delta)) / delta)))
  | _ => 1
  end.

(** Events of lines 116-143, as opposed to those of lines 52-114. *)
Definition is_gate_event (e : Event) : bool :=
  match e with
  | Call _ => false
  | ConsolePrint LegacyViewerNotSupported => false
  | _ => true
  end.

(** The phases of [setup] that the order of section 4.1 tells apart:
    pipeline, optimizers, viewer handling, checkpoint, callbacks, the
    writers with the profiler and the configuration record, and the gate. *)
Definition stage (e : Event) : nat :=
  match e with
  | Call pipeline_setup => 1
  | Call setup_optimizers => 2
  | ConsolePrint LegacyViewerNotSupported => 3
  | Call ros_viewer => 3
  | Call check_viewer_warnings => 3
  | Call load_checkpoint => 4
  | Call get_training_callbacks => 5
  | Call setup_event_writer => 6
  | Call setup_local_writer => 6
  | Call put_config => 6
  | Call setup_profiler => 6
  | _ => 7
  end.

Definition in_stage_order (a b : Event) : Prop := (stage a <= stage b)%nat.

(** The steps before the gate in the order of lines 52-114, for a trainer
    with the given configuration and rank. *)
Definition viewer_events (t : ROSTrainer) : list Event :=
  (if is_viewer_legacy_enabled (config t) && (local_rank t =? 0)
   then [ConsolePrint LegacyViewerNotSupported] else [])
  ++ (if is_viewer_enabled (config t) && (local_rank t =? 0)
      then [Call ros_viewer] else [])
  ++ [Call check_viewer_warnings].

Definition writer_events : list Event :=
  [Call setup_event_writer; Call setup_local_writer; Call put_config;
   Call setup_profiler].

Definition pre_gate_events (t : ROSTrainer) : list Event :=
  [Call pipeline_setup; Call setup_optimizers]
  ++ viewer_events t
  ++ [Call load_checkpoint; Call get_training_callbacks]
  ++ writer_events.

(** [l1] is an initial segment of [l2]. *)
Definition prefix_of {A} (l1 l2 : list A) : Prop := exists rest, l2 = l1 ++ rest.

(** Two trainers that differ at most in [dataset]. *)
Definition same_but_dataset (t t' : ROSTrainer) : Prop :=
  config t' = config t /\
  local_rank t' = local_rank t /\
  world_size t' = world_size t /\
  msg_timeout t' = msg_timeout t /\
  cameras_drawn t' = cameras_drawn t /\
  num_msgs_to_start t' = num_msgs_to_start t /\
  pipeline t' = pipeline t /\
  optimizers t' = optimizers t /\
  viewer_state t' = viewer_state t /\
  callbacks t' = callbacks t.

(** The buffer count net of what the subscriber thread has appended: it
    changes only if somebody else writes to the count. *)
Definition own_writes (env : Env) (w : World) : Z :=
  current_idx w - arrived env (yields w).

(** What the gate leaves alone, between a state and a later one. *)
Definition gate_frame (env : Env) (st st' : St) : Prop :=
  same_but_dataset (self st) (self st') /\
  own_writes env (world st') = own_writes env (world st) /\
  exists evs, trace (world st') = trace (world st) ++ evs /\
              forallb is_gate_event evs = true.

(** A computation all of whose runs relate the state they start in to the
    state they end in. *)
Definition preserves {A} (R : St -> St -> Prop) (m : M A) : Prop :=
  forall st, R st (snd (m st)).

(** A trace without the updates of the status display. *)
Definition is_status_update (e : Event) : bool :=
  match e with
  | StatusUpdate _ => true
  | _ => false
  end.

Definition mute (tr : list Event) : list Event :=
  filter (fun e => negb (is_status_update e)) tr.

(** Two states that agree on everything but the updates of the display. *)
Definition sim (st1 st2 : St) : Prop :=
  self st1 = self st2 /\
  now (world st1) = now (world st2) /\
  current_idx (world st1) = current_idx (world st2) /\
  yields (world st1) = yields (world st2) /\
  mute (trace (world st1)) = mute (trace (world st2)).

(** Two computations that, from states that agree up to the display, end
    the same way in states that agree up to the display. *)
Definition related {A} (m1 m2 : M A) : Prop :=
  forall st1 st2, sim st1 st2 ->
    fst (m1 st1) = fst (m2 st2) /\ sim (snd (m1 st1)) (snd (m2 st2)).

(** ** Concrete runs *)

Definition quiet_env (lg : nat -> Q) (arr : nat -> Z) : Env :=
  mkEnv lg arr (fun _ => false)
        (fun _ => mkPipeline 1%nat 7%nat) 2%nat (mkViewer 3%nat 4%nat)
        [5%nat; 6%nat].

(** A freshly constructed trainer on the primary process, before [setup]. *)
Definition fresh (cfg : ROSTrainerConfig) : St :=
  mkSt (ROSTrainer_init cfg 0 0) (mkWorld 0 0 0 []).

(** A trainer as it stands on entry to the gate: pipeline built, the buffer
    holding [idx]. *)
Definition at_gate (cfg : ROSTrainerConfig) (idx : Z) : St :=
  mkSt (set_pipeline (mkPipeline 1%nat 7%nat) (ROSTrainer_init cfg 0 0))
       (mkWorld 0 idx 0 []).

(** The scenario of section 8: ten images required within five seconds, the
    buffer stalls at three.  Every turn of the environment takes a second. *)
Definition stalled_config : ROSTrainerConfig := mkConfig 5 10 false false.

Definition stalled_env : Env :=
  quiet_env (fun _ => 1%Q) (fun n => if Nat.eqb n 0 then 3 else 0).

(** The guard of the [while] loop, as the state [st] will see it at its next
    look at the clock. *)
Definition guard (env : Env) (start : Q) (st : St) : bool :=
  float_ltb (Finite (now (after_clock env (world st)) - start))
            (msg_timeout (self st)).

(** The count the next poll will read. *)
Definition next_idx (env : Env) (st : St) : Z :=
  current_idx (after_clock env (world st)).

(** The events of a poll that leaves the gate waiting. *)
Definition waiting_events (show_status : bool) (v : Z) : list Event :=
  ReadCurrentIdx v
  :: (if show_status then [StatusUpdate (ImagesReceived v)] else [])
  ++ [Sleep poll_interval].

(** The five ways a poll can go. *)
Inductive poll_case (env : Env) (show_status : bool)
  (start : Q) (status : PyVal) (st : St)
  : Res (GateState * PyVal) * St -> Prop :=
| case_expired :
    guard env start st = false ->
    poll_case env show_status start status st
      (Ok (TIMED_OUT, status), mkSt (self st) (after_clock env (world st)))
| case_no_pipeline :
    guard env start st = true ->
    pipeline (self st) = None ->
    poll_case env show_status start status st
      (Raise AttributeError, mkSt (self st) (after_clock env (world st)))
| case_ready :
    guard env start st = true ->
    pipeline (self st) <> None ->
    enough (self st) (next_idx env st) ->
    poll_case env show_status start status st
      (Ok (READY, PyBool true),
       mkSt (self st)
            (add_events [ReadCurrentIdx (next_idx env st)]
                        (after_clock env (world st))))
| case_bool_update b :
    guard env start st = true ->
    pipeline (self st) <> None ->
    ~ enough (self st) (next_idx env st) ->
    show_status = true ->
    status = PyBool b ->
    poll_case env show_status start status st
      (Raise AttributeError,
       mkSt (self st)
            (add_events [ReadCurrentIdx (next_idx env st)]
                        (after_clock env (world st))))
| case_waiting :
    guard env start st = true ->
    pipeline (self st) <> None ->
    ~ enough (self st) (next_idx env st) ->
    show_status = false \/ status = PyStatus ->
    poll_case env show_status start status st
      (Ok (WAITING, status),
       mkSt (self st)
            (slept (add_events (waiting_events show_status (next_idx env st))
                               (after_clock env (world st))))).


(** What a run of the loop that started with [status] bound to the [Status]
    object amounts to: how it ended, against the events [evs] it added and
    the fuel it was given. *)
Definition loop_outcome (t : ROSTrainer) (fuel : nat) (evs : list Event)
  (r : Res (GateState * PyVal)) : Prop :=
  match r with
  | Ok (g, s) =>
      (S (sleeps evs) <= fuel)%nat /\
      ((g = READY /\ s = PyBool true /\
        exists obs v, observed evs = obs ++ [v] /\ enough t v /\
                      Forall (fun u => ~ enough t u) obs)
       \/
       (g = TIMED_OUT /\ s = PyStatus /\
        Forall (fun u => ~ enough t u) (observed evs)))
  | Raise e => e = AttributeError /\ pipeline t = None /\ sleeps evs = O
  | OutOfFuel => sleeps evs = fuel
  end.

(** The value of [start] (line 117) for a gate entered in state [st]. *)
Definition gate_start (env : Env) (st : St) : Q :=
  now (after_clock env (world st)).

(** The state in which the [while] loop is entered, for a gate entered in
    state [st]: the clock read, the announcement printed, the status display
    started. *)
Definition loop_entry (env : Env) (st : St) : St :=
  mkSt (self st)
       (add_events [ConsolePrint (WaitingToReceive (num_msgs_to_start (self st)));
                    StatusStart]
                   (after_clock env (world st))).

(** Leaving the [with] block stops the display. *)
Definition status_stopped (st : St) : St :=
  mkSt (self st) (add_events [StatusStop] (world st)).

(** The state a call into a collaborator leaves behind. *)
Definition called (env : Env) (s : Step) (st : St) : St :=
  mkSt (self st) (env_step env (add_events [Call s] (world st))).

(** What [setup] hands to the gate when no collaborator has raised. *)
Record enters_gate (env : Env) (test_mode : TestMode) (st st_g : St) : Prop := {
  gate_trace :
    trace (world st_g) = trace (world st) ++ pre_gate_events (self st);
  gate_pipeline : pipeline (self st_g) = Some (made_pipeline env test_mode);
  gate_config : config (self st_g) = config (self st);
  gate_local_rank : local_rank (self st_g) = local_rank (self st);
  gate_msg_timeout : msg_timeout (self st_g) = msg_timeout (self st);
  gate_num_msgs : num_msgs_to_start (self st_g) = num_msgs_to_start (self st);
  gate_dataset : dataset (self st_g) = dataset (self st)
}.

(** The state a poll leaves behind when the gate stays waiting. *)
Definition after_wait (env : Env) (show_status : bool) (st : St) : St :=
  mkSt (self st)
       (slept (add_events (waiting_events show_status (next_idx env st))
                          (after_clock env (world st)))).

(** An environment in which nothing takes time and nothing arrives. *)
Definition still_env : Env := quiet_env (fun _ => 0%Q) (fun _ => 0).

(** Every turn of the environment takes a hundredth of a second and brings
    [per_turn] images. *)
Definition steady_env (per_turn : Z) : Env :=
  quiet_env (fun _ => 1 # 100) (fun _ => per_turn).

(** The buffer is empty until the environment's turn [n], at which [k]
    images arrive at once. *)
Definition burst_env (n : nat) (k : Z) : Env :=
  quiet_env (fun _ => 1 # 100) (fun i => if Nat.eqb i n then k else 0).

(** Legacy visualisation requested, everything else off. *)
Definition legacy_config : ROSTrainerConfig := default_config true false.

(** ** Vocabulary of the further properties *)

(** The attributes that [__init__] sets (lines 38-41) and that no line of
    [setup] assigns. *)
Definition same_settings (t t' : ROSTrainer) : Prop :=
  config t' = config t /\
  local_rank t' = local_rank t /\
  world_size t' = world_size t /\
  msg_timeout t' = msg_timeout t /\
  cameras_drawn t' = cameras_drawn t /\
  num_msgs_to_start t' = num_msgs_to_start t.

(** What lines 63-81 leave in [viewer_state]. *)
Definition expected_viewer (env : Env) (t : ROSTrainer) : option Viewer :=
  if is_viewer_enabled (config t) && (local_rank t =? 0)
  then Some (made_viewer env) else None.

(** The trainer as lines 52-114 leave it when no collaborator has raised. *)
Record built (env : Env) (test_mode : TestMode) (st st_g : St) : Prop := {
  built_trace :
    trace (world st_g) = trace (world st) ++ pre_gate_events (self st);
  built_settings : same_settings (self st) (self st_g);
  built_pipeline : pipeline (self st_g) = Some (made_pipeline env test_mode);
  built_optimizers : optimizers (self st_g) = Some (made_optimizers env);
  built_viewer : viewer_state (self st_g) = expected_viewer env (self st);
  built_callbacks : callbacks (self st_g) = Some (made_callbacks env);
  built_dataset : dataset (self st_g) = dataset (self st)
}.

(** A run of [setup] cut short by the collaborator [s]: the calls made are
    an initial segment of the steps before the gate that ends with the call
    of [s], every call before that one has returned, and neither [dataset]
    nor the settings have been touched. *)
Record cut_short (env : Env) (s : Step) (done : list Event) (st st' : St)
  : Prop := {
  cut_fails : fails env s = true;
  cut_trace : trace (world st') = trace (world st) ++ done;
  cut_prefix : prefix_of done (pre_gate_events (self st));
  cut_last : last done (ConsolePrint BufferFilled) = Call s;
  cut_earlier :
    forall s0, In (Call s0) (removelast done) -> fails env s0 = false;
  cut_settings : same_settings (self st) (self st');
  cut_dataset : dataset (self st') = dataset (self st)
}.

(** The required count is not reached by [v] (the [else] of line 128). *)
Definition short (t : ROSTrainer) (v : Z) : bool :=
  negb (v >=? num_msgs_to_start t - 1).

(** What a trace shows of the status display. *)
Definition is_display_event (e : Event) : bool :=
  match e with
  | StatusStart | StatusUpdate _ | StatusStop => true
  | _ => false
  end.

Definition display (tr : list Event) : list Event := filter is_display_event tr.

(** The arguments of the [time.sleep] calls in a trace. *)
Fixpoint sleep_durations (tr : list Event) : list Q :=
  match tr with
  | [] => []
  | Sleep secs :: tr' => secs :: sleep_durations tr'
  | _ :: tr' => sleep_durations tr'
  end.

(** What the display is given to show for the counts [obs]. *)
Definition shown (t : ROSTrainer) (obs : list Z) : list Event :=
  map (fun v => StatusUpdate (ImagesReceived v)) (filter (short t) obs).

(** The count the buffer would hold at the environment's turn [n], seen from
    a world [w], if nobody but the subscriber thread writes to it. *)
Definition count_at (env : Env) (w : World) (n : nat) : Z :=
  current_idx w + (arrived env n - arrived env (yields w)).

(** The profiler cannot be set up; everything else works. *)
Definition broken_profiler_env : Env :=
  mkEnv (fun _ => 1 # 100) (fun _ => 1)
        (fun s => match s with setup_profiler => true | _ => false end)
        (fun _ => mkPipeline 1%nat 7%nat) 2%nat (mkViewer 3%nat 4%nat)
        [5%nat; 6%nat].

(** Modern viewer requested. *)
Definition viewer_config : ROSTrainerConfig := default_config false true.

(** ** Rational comparisons *)

Lemma Qltb_true (a b : Q) : Qltb a b = true <-> (a < b)%Q.
Proof.
  unfold Qltb. rewrite negb_true_iff.
  split; intro H.
  - apply Qnot_le_lt. intro L. apply Qle_bool_iff in L. congruence.
  - destruct (Qle_bool b a) eqn:E; [|reflexivity].
    apply Qle_bool_iff in E. exfalso. apply (Qlt_not_le _ _ H E).
Qed.

Lemma Qltb_false (a b : Q) : Qltb a b = false <-> (b <= a)%Q.
Proof.
  unfold Qltb. rewrite negb_false_iff. apply Qle_bool_iff.
Qed.

(** ** What one poll does, in explicit state-passing form *)

Section PollEquations.

Variable env : Env.
Variable show_status : bool.

Lemma perf_counter_eq st :
  perf_counter env st =
  (Ok (now (after_clock env (world st))),
   mkSt (self st) (after_clock env (world st))).
Proof. reflexivity. Qed.

Lemma geb_enough t v : (v >=? num_msgs_to_start t - 1) = true <-> enough t v.
Proof. unfold enough. rewrite Z.geb_le. reflexivity. Qed.

Lemma geb_not_enough t v : (v >=? num_msgs_to_start t - 1) = false <-> ~ enough t v.
Proof.
  unfold enough. destruct (Z.geb_spec v (num_msgs_to_start t - 1)); split;
    intros; try lia; congruence.
Qed.

(** The deadline has passed: the loop ends without reading the buffer. *)
Lemma poll_expired start status st :
  guard env start st = false ->
  poll env show_status start status st =
  (Ok (TIMED_OUT, status), mkSt (self st) (after_clock env (world st))).
Proof.
  unfold guard. intros G. unfold poll, bind. rewrite perf_counter_eq.
  cbn [get_self self]. rewrite G. reflexivity.
Qed.

(** Before the deadline, the buffer holds enough: [status = True; break]. *)
Lemma poll_ready start status st p :
  guard env start st = true ->
  pipeline (self st) = Some p ->
  enough (self st) (next_idx env st) ->
  poll env show_status start status st =
  (Ok (READY, PyBool true),
   mkSt (self st)
        (add_events [ReadCurrentIdx (next_idx env st)]
                    (after_clock env (world st)))).
Proof.
  unfold guard, next_idx. intros G P R. apply geb_enough in R.
  unfold poll, bind. rewrite perf_counter_eq. cbn [get_self self].
  rewrite G. unfold read_current_idx, get_pipeline, bind. cbn [get_self self].
  rewrite P. cbn. cbn in R. rewrite R. reflexivity.
Qed.

(** Before the deadline, the buffer does not hold enough: update the
    display, sleep, go round again. *)
Lemma poll_waiting start st p :
  guard env start st = true ->
  pipeline (self st) = Some p ->
  ~ enough (self st) (next_idx env st) ->
  poll env show_status start PyStatus st =
  (Ok (WAITING, PyStatus),
   mkSt (self st)
        (slept (add_events (waiting_events show_status (next_idx env st))
                           (after_clock env (world st))))).
Proof.
  unfold guard, next_idx. intros G P R. apply geb_not_enough in R.
  unfold poll, bind. rewrite perf_counter_eq. cbn [get_self self].
  rewrite G. unfold read_current_idx, get_pipeline, bind. cbn [get_self self].
  rewrite P. cbn. cbn in R. rewrite R.
  destruct show_status; cbn; unfold slept, add_events, waiting_events; cbn;
    rewrite <- !app_assoc; reflexivity.
Qed.

(** Without the display updates the value of [status] does not matter. *)
Lemma poll_waiting_any start status st p :
  guard env start st = true ->
  pipeline (self st) = Some p ->
  ~ enough (self st) (next_idx env st) ->
  show_status = false \/ status = PyStatus ->
  poll env show_status start status st =
  (Ok (WAITING, status),
   mkSt (self st)
        (slept (add_events (waiting_events show_status (next_idx env st))
                           (after_clock env (world st))))).
Proof.
  unfold guard, next_idx. intros G P R D. apply geb_not_enough in R.
  unfold poll, bind. rewrite perf_counter_eq. cbn [get_self self].
  rewrite G. unfold read_current_idx, get_pipeline, bind. cbn [get_self self].
  rewrite P. cbn. cbn in R. rewrite R.
  destruct D as [-> | ->]; [|destruct show_status]; cbn;
    unfold slept, add_events, waiting_events; cbn;
    rewrite <- !app_assoc; reflexivity.
Qed.

(** [self.pipeline] is not there: the attribute access raises. *)
Lemma poll_no_pipeline start status st :
  guard env start st = true ->
  pipeline (self st) = None ->
  poll env show_status start status st =
  (Raise AttributeError, mkSt (self st) (after_clock env (world st))).
Proof.
  unfold guard. intros G P. unfold poll, bind. rewrite perf_counter_eq.
  cbn [get_self self]. rewrite G.
  unfold read_current_idx, get_pipeline, bind. cbn [get_self self].
  rewrite P. reflexivity.
Qed.

(** [status] is a boolean, which has no [update]. *)
Lemma poll_bool_update start b st p :
  guard env start st = true ->
  pipeline (self st) = Some p ->
  ~ enough (self st) (next_idx env st) ->
  show_status = true ->
  poll env show_status start (PyBool b) st =
  (Raise AttributeError,
   mkSt (self st)
        (add_events [ReadCurrentIdx (next_idx env st)]
                    (after_clock env (world st)))).
Proof.
  unfold guard, next_idx. intros G P R D. apply geb_not_enough in R.
  unfold poll, bind. rewrite perf_counter_eq. cbn [get_self self].
  rewrite G. unfold read_current_idx, get_pipeline, bind. cbn [get_self self].
  rewrite P. cbn. cbn in R. rewrite R. rewrite D. reflexivity.
Qed.

Lemma poll_cases start status st :
  poll_case env show_status start status st
            (poll env show_status start status st).
Proof.
  destruct (guard env start st) eqn:G.
  2: { rewrite poll_expired by exact G. constructor; exact G. }
  destruct (pipeline (self st)) as [p|] eqn:P.
  2: { rewrite poll_no_pipeline by assumption. constructor; assumption. }
  assert (P' : pipeline (self st) <> None) by congruence.
  destruct (Z_le_dec (num_msgs_to_start (self st) - 1) (next_idx env st)) as [E|E].
  { rewrite (poll_ready _ _ _ p) by assumption. constructor; assumption. }
  destruct (bool_dec show_status false) as [D|D].
  { rewrite (poll_waiting_any _ _ _ p) by auto. apply case_waiting; auto. }
  apply not_false_is_true in D.
  destruct status as [b|].
  - rewrite (poll_bool_update _ _ _ p) by auto.
    apply (case_bool_update _ _ _ _ _ b); auto.
  - rewrite (poll_waiting_any _ _ _ p) by auto.
    apply case_waiting; auto.
Qed.

End PollEquations.

(** ** Computations that preserve a relation *)

Section Preserves.

Variable R : St -> St -> Prop.
Hypothesis R_refl : forall st, R st st.
Hypothesis R_trans : forall st1 st2 st3, R st1 st2 -> R st2 st3 -> R st1 st3.

Lemma preserves_ret A (a : A) : preserves R (ret a).
Proof. intros st. apply R_refl. Qed.

Lemma preserves_raise A e : preserves R (@raise A e).
Proof. intros st. apply R_refl. Qed.

Lemma preserves_out_of_fuel A : preserves R (@out_of_fuel A).
Proof. intros st. apply R_refl. Qed.

Lemma preserves_get_self : preserves R get_self.
Proof. intros st. apply R_refl. Qed.

Lemma preserves_get_now : preserves R get_now.
Proof. intros st. apply R_refl. Qed.

Lemma preserves_get_current_idx : preserves R get_current_idx.
Proof. intros st. apply R_refl. Qed.

Lemma preserves_bind A B (m : M A) (k : A -> M B) :
  preserves R m -> (forall a, preserves R (k a)) -> preserves R (bind m k).
Proof.
  intros Hm Hk st. unfold bind.
  specialize (Hm st). destruct (m st) as [[a|e|] st1]; cbn in *; auto.
  eapply R_trans; [exact Hm | apply Hk].
Qed.

Lemma preserves_if A (b : bool) (m1 m2 : M A) :
  preserves R m1 -> preserves R m2 -> preserves R (if b then m1 else m2).
Proof. destruct b; auto. Qed.

End Preserves.

(** ** The frame of the gate *)

Section GateFrame.

Variable env : Env.
Variable show_status : bool.

Lemma same_but_dataset_refl t : same_but_dataset t t.
Proof. repeat split. Qed.

Lemma same_but_dataset_trans t1 t2 t3 :
  same_but_dataset t1 t2 -> same_but_dataset t2 t3 -> same_but_dataset t1 t3.
Proof.
  unfold same_but_dataset. intros H1 H2.
  repeat match goal with H : _ /\ _ |- _ => destruct H end.
  repeat split; congruence.
Qed.

Lemma gate_frame_refl st : gate_frame env st st.
Proof.
  split; [apply same_but_dataset_refl|]. split; [reflexivity|].
  exists []. rewrite app_nil_r. split; reflexivity.
Qed.

Lemma gate_frame_trans st1 st2 st3 :
  gate_frame env st1 st2 -> gate_frame env st2 st3 -> gate_frame env st1 st3.
Proof.
  intros (S1 & W1 & evs1 & T1 & G1) (S2 & W2 & evs2 & T2 & G2).
  split; [eapply same_but_dataset_trans; eassumption|].
  split; [congruence|].
  exists (evs1 ++ evs2). split.
  - rewrite T2, T1, app_assoc. reflexivity.
  - rewrite forallb_app, G1, G2. reflexivity.
Qed.

Lemma frame_log e : is_gate_event e = true -> preserves (gate_frame env) (log e).
Proof.
  intros He st. split; [apply same_but_dataset_refl|]. split; [reflexivity|].
  exists [e]. cbn. rewrite He. split; reflexivity.
Qed.

Lemma frame_yield : preserves (gate_frame env) (yield env).
Proof.
  intros st. split; [apply same_but_dataset_refl|]. split.
  - unfold own_writes. cbn. lia.
  - exists []. cbn. rewrite app_nil_r. split; reflexivity.
Qed.

Lemma frame_set_dataset d : preserves (gate_frame env) (set_self (set_dataset d)).
Proof.
  intros st. split; [repeat split|]. split; [reflexivity|].
  exists []. cbn. rewrite app_nil_r. split; reflexivity.
Qed.

Create HintDb frame.

#[local] Hint Resolve gate_frame_refl gate_frame_trans : frame.
#[local] Hint Resolve preserves_ret preserves_raise preserves_out_of_fuel
  preserves_get_self preserves_get_now preserves_get_current_idx
  preserves_if frame_log frame_yield frame_set_dataset : frame.

Ltac frame_step :=
  first
    [ apply preserves_bind;
      [apply gate_frame_trans | | intros ?]
    | apply preserves_if
    | apply frame_log; reflexivity
    | solve [auto with frame] ].

Lemma frame_sleep secs : preserves (gate_frame env) (sleep secs).
Proof.
  unfold sleep. frame_step; [frame_step|].
  intros st. split; [apply same_but_dataset_refl|]. split; [reflexivity|].
  exists []. cbn. rewrite app_nil_r. split; reflexivity.
Qed.

Lemma frame_perf_counter : preserves (gate_frame env) (perf_counter env).
Proof. unfold perf_counter. repeat frame_step. Qed.

Lemma frame_get_pipeline : preserves (gate_frame env) get_pipeline.
Proof.
  unfold get_pipeline. frame_step; [frame_step|].
  destruct (pipeline _); frame_step.
Qed.

Lemma frame_read_current_idx : preserves (gate_frame env) read_current_idx.
Proof.
  unfold read_current_idx. frame_step; [apply frame_get_pipeline|].
  repeat frame_step.
Qed.

Lemma frame_status_update status m :
  preserves (gate_frame env) (status_update status m).
Proof. destruct status; cbn; frame_step. Qed.

Lemma frame_poll start status :
  preserves (gate_frame env) (poll env show_status start status).
Proof.
  unfold poll. frame_step; [apply frame_perf_counter|].
  frame_step; [frame_step|].
  frame_step; [|frame_step].
  frame_step; [apply frame_read_current_idx|].
  frame_step; [frame_step|].
  frame_step; [frame_step; [apply frame_status_update | frame_step]|].
  frame_step; [apply frame_sleep | frame_step].
Qed.

Lemma frame_while_loop fuel start status :
  preserves (gate_frame env) (while_loop env show_status fuel start status).
Proof.
  revert status. induction fuel as [|fuel IH]; intros status; cbn [while_loop].
  - frame_step.
  - frame_step; [apply frame_poll|].
    destruct (fst a); [apply IH | frame_step | frame_step].
Qed.

Lemma frame_with_console_status A (body : PyVal -> M A) :
  (forall s, preserves (gate_frame env) (body s)) ->
  preserves (gate_frame env) (with_console_status body).
Proof.
  intros Hb. unfold with_console_status.
  frame_step; [frame_step|].
  intros st. specialize (Hb PyStatus st).
  destruct (body PyStatus st) as [r st1]. cbn [snd] in *.
  eapply gate_frame_trans; [exact Hb|].
  apply (frame_log StatusStop eq_refl st1).
Qed.

Lemma frame_status_check_loop fuel :
  preserves (gate_frame env) (status_check_loop env show_status fuel).
Proof.
  unfold status_check_loop, console_print.
  frame_step; [apply frame_perf_counter|].
  frame_step; [frame_step|].
  frame_step; [frame_step|].
  apply frame_with_console_status. intros s. apply frame_while_loop.
Qed.

Lemma frame_readiness_gate fuel :
  preserves (gate_frame env) (readiness_gate env show_status fuel).
Proof.
  unfold readiness_gate, console_print.
  frame_step; [apply frame_status_check_loop|].
  frame_step; [apply frame_get_pipeline|].
  frame_step; [frame_step|].
  frame_step; [frame_step|].
  repeat frame_step.
Qed.

End GateFrame.

(** ** The loop as a whole *)

Section LoopFacts.

Variable env : Env.
Variable show_status : bool.

Lemma observed_app tr1 tr2 : observed (tr1 ++ tr2) = observed tr1 ++ observed tr2.
Proof.
  induction tr1 as [|e tr1 IH]; [reflexivity|].
  destruct e; cbn; rewrite IH; reflexivity.
Qed.

Lemma sleeps_app tr1 tr2 : sleeps (tr1 ++ tr2) = (sleeps tr1 + sleeps tr2)%nat.
Proof.
  induction tr1 as [|e tr1 IH]; [reflexivity|].
  destruct e; cbn; rewrite IH; reflexivity.
Qed.

Lemma observed_waiting v : observed (waiting_events show_status v) = [v].
Proof. unfold waiting_events. destruct show_status; reflexivity. Qed.

Lemma sleeps_waiting v : sleeps (waiting_events show_status v) = 1%nat.
Proof. unfold waiting_events. destruct show_status; reflexivity. Qed.

Lemma since_app (tr evs : list Event) : since tr (tr ++ evs) = evs.
Proof.
  unfold since. induction tr as [|e tr IH]; [reflexivity | exact IH].
Qed.

(** One unfolding of the loop. *)
Lemma while_loop_S fuel start status st :
  while_loop env show_status (S fuel) start status st =
  match poll env show_status start status st with
  | (Ok (WAITING, s), st1) => while_loop env show_status fuel start s st1
  | (Ok r, st1) => (Ok r, st1)
  | (Raise e, st1) => (Raise e, st1)
  | (OutOfFuel, st1) => (OutOfFuel, st1)
  end.
Proof.
  cbn [while_loop]. unfold bind.
  destruct (poll env show_status start status st) as [[[g s]|e|] st1];
    try reflexivity.
  destruct g; reflexivity.
Qed.

(** The loop changes no attribute of [self], only adds to the trace, and
    ends in one of the ways [loop_outcome] lists. *)
Lemma while_loop_spec fuel : forall start st r st',
  while_loop env show_status fuel start PyStatus st = (r, st') ->
  self st' = self st /\
  exists evs, trace (world st') = trace (world st) ++ evs /\
              loop_outcome (self st) fuel evs r.
Proof.
  induction fuel as [|fuel IH]; intros start st r st' H.
  - cbn in H. inversion H; subst. split; [reflexivity|].
    exists []. rewrite app_nil_r. split; reflexivity.
  - rewrite while_loop_S in H.
    destruct (poll_cases env show_status start PyStatus st)
      as [G | G P | G P E | b G P E D S | G P E D].
    + inversion H; subst. split; [reflexivity|].
      eexists. split; [reflexivity|]. cbn. split; [lia|].
      right. repeat split. constructor.
    + inversion H; subst. split; [reflexivity|].
      eexists. split; [reflexivity|]. cbn. auto.
    + inversion H; subst. split; [reflexivity|].
      exists [PerfCounter (now (after_clock env (world st)));
              ReadCurrentIdx (next_idx env st)].
      split; [cbn; rewrite <- app_assoc; reflexivity|].
      cbn. split; [lia|]. left. repeat split.
      exists [], (next_idx env st). repeat split; auto.
    + discriminate.
    + apply IH in H. destruct H as (Hs & evs & Ht & Ho).
      cbn [self world] in *. split; [exact Hs|].
      exists ([PerfCounter (now (after_clock env (world st)))]
              ++ waiting_events show_status (next_idx env st) ++ evs).
      split.
      { rewrite Ht. unfold slept, add_events. cbn [trace].
        unfold after_clock at 1. cbn [trace].
        rewrite <- !app_assoc. reflexivity. }
      destruct r as [[g s]|e|]; cbn [loop_outcome] in Ho |- *.
      * rewrite !sleeps_app, sleeps_waiting, !observed_app, observed_waiting.
        destruct Ho as (Hf & Ho). split; [cbn; lia|].
        destruct Ho as [(-> & -> & obs & v & Hobs & Hv & Hall)
                       |(-> & -> & Hall)].
        -- left. repeat split.
           exists (next_idx env st :: obs), v. cbn. rewrite Hobs.
           repeat split; auto.
        -- right. repeat split. cbn. constructor; auto.
      * destruct Ho as (_ & Ho & _). congruence.
      * rewrite !sleeps_app, sleeps_waiting. cbn. lia.
Qed.

End LoopFacts.

(** ** The gate in explicit state-passing form *)

Section GateEquations.

Variable env : Env.
Variable show_status : bool.

Lemma status_check_loop_eq fuel st :
  status_check_loop env show_status fuel st =
  (fst (while_loop env show_status fuel (gate_start env st) PyStatus
                   (loop_entry env st)),
   status_stopped
     (snd (while_loop env show_status fuel (gate_start env st) PyStatus
                      (loop_entry env st)))).
Proof.
  unfold status_check_loop, bind. rewrite perf_counter_eq.
  cbn [get_self console_print log set_world with_console_status self world
       fst snd].
  unfold gate_start, loop_entry, add_events.
  unfold with_console_status, bind, log, set_world.
  cbn [trace now current_idx yields self world fst snd].
  rewrite <- app_assoc. cbn [app].
  destruct (while_loop _ _ _ _ _ _) as [r st2]. reflexivity.
Qed.

Lemma readiness_gate_eq fuel st :
  readiness_gate env show_status fuel st =
  match status_check_loop env show_status fuel st with
  | (Ok (g, status), st1) =>
      match pipeline (self st1) with
      | None => (Raise AttributeError, st1)
      | Some p =>
          let st2 := mkSt (set_dataset (train_dataset p) (self st1))
                          (add_events [ReadTrainDataset] (world st1)) in
          if negb (truthy status) then (Raise NameError, st2)
          else (Ok tt, mkSt (self st2)
                            (add_events [ConsolePrint BufferFilled] (world st2)))
      end
  | (Raise e, st1) => (Raise e, st1)
  | (OutOfFuel, st1) => (OutOfFuel, st1)
  end.
Proof.
  unfold readiness_gate, bind.
  destruct (status_check_loop env show_status fuel st) as [[[g status]|e|] st1];
    try reflexivity.
  unfold get_pipeline, bind. cbn [get_self self snd].
  destruct (pipeline (self st1)) as [p|]; [|reflexivity].
  cbn. destruct (truthy status); reflexivity.
Qed.

(** The gate proper ends as its loop does. *)
Lemma status_check_loop_spec fuel st r st' :
  status_check_loop env show_status fuel st = (r, st') ->
  self st' = self st /\
  exists evs,
    trace (world st') =
    trace (world st)
    ++ [PerfCounter (gate_start env st);
        ConsolePrint (WaitingToReceive (num_msgs_to_start (self st)));
        StatusStart]
    ++ evs ++ [StatusStop] /\
    loop_outcome (self st) fuel evs r.
Proof.
  rewrite status_check_loop_eq.
  destruct (while_loop _ _ _ _ _ _) as [r1 st1] eqn:W.
  intros H. inversion H; subst. clear H.
  apply while_loop_spec in W. destruct W as (Hs & evs & Ht & Ho).
  split; [exact Hs|]. exists evs. split; [|exact Ho].
  unfold status_stopped, add_events. cbn [world trace]. rewrite Ht.
  unfold loop_entry, add_events, after_clock, gate_start.
  cbn [world trace now]. rewrite <- !app_assoc. reflexivity.
Qed.

(** The local [status] is true however the loop ends (line 122 rebinds the
    name to the [Status] object; line 126 to [True]). *)
Lemma status_check_loop_truthy fuel st g s st' :
  status_check_loop env show_status fuel st = (Ok (g, s), st') ->
  truthy s = true.
Proof.
  intros H. apply status_check_loop_spec in H.
  destruct H as (_ & evs & _ & Ho). cbn in Ho.
  destruct Ho as (_ & [(_ & -> & _) | (_ & -> & _)]); reflexivity.
Qed.

End GateEquations.

(** ** The guard against each kind of timeout *)

Lemma guard_finite env start st T :
  msg_timeout (self st) = Finite T ->
  guard env start st = Qltb (now (after_clock env (world st)) - start) T.
Proof. unfold guard. intros ->. reflexivity. Qed.

Lemma guard_infinite env start st :
  msg_timeout (self st) = PosInf -> guard env start st = true.
Proof. unfold guard. intros ->. reflexivity. Qed.

Lemma guard_minus_infinite env start st :
  msg_timeout (self st) = NegInf -> guard env start st = false.
Proof. unfold guard. intros ->. reflexivity. Qed.

Lemma guard_not_a_number env start st :
  msg_timeout (self st) = NaN -> guard env start st = false.
Proof. unfold guard. intros ->. reflexivity. Qed.

(** ** Termination of the loop *)

Section Termination.

Variable env : Env.
Variable show_status : bool.

Lemma poll_not_out_of_fuel start status st :
  fst (poll env show_status start status st) <> OutOfFuel.
Proof.
  destruct (poll_cases env show_status start status st); cbn; discriminate.
Qed.

(** Once the guard fails, one iteration is the last, whatever the fuel. *)
Lemma while_loop_expired fuel start status st :
  guard env start st = false ->
  while_loop env show_status (S fuel) start status st =
  (Ok (TIMED_OUT, status), mkSt (self st) (after_clock env (world st))).
Proof.
  intros G. rewrite while_loop_S, poll_expired by exact G. reflexivity.
Qed.

Section Advancing.

(** Every iteration that sleeps advances the clock by at least [delta]. *)
Variable delta : Q.
Hypothesis delta_positive : (0 < delta)%Q.
Hypothesis clock_advances : forall n, (delta <= poll_interval + lag env n)%Q.

(** With a finite timeout and [n] advances of [delta] left before the
    deadline, [S n] iterations are enough, and more fuel changes nothing. *)
Lemma while_loop_enough_fuel n : forall fuel start status st T,
  msg_timeout (self st) = Finite T ->
  (T + (poll_interval - delta) - (now (world st) - start)
   <= inject_Z (Z.of_nat n) * delta)%Q ->
  (S n <= fuel)%nat ->
  while_loop env show_status fuel start status st =
  while_loop env show_status (S n) start status st /\
  fst (while_loop env show_status (S n) start status st) <> OutOfFuel.
Proof.
  induction n as [|n IH]; intros fuel start status st T HT Hm Hf;
    (destruct fuel as [|fuel]; [lia|]);
    rewrite !while_loop_S;
    pose proof (clock_advances (yields (world st))) as Hlag;
    destruct (poll_cases env show_status start status st)
      as [G | G P | G P E | b G P E D S | G P E D];
    try (split; [reflexivity | cbn; discriminate]).
  - exfalso. rewrite (guard_finite _ _ _ _ HT) in G. apply Qltb_true in G.
    unfold after_clock in G. cbn [now] in G.
    change (inject_Z (Z.of_nat 0)) with 0%Q in Hm. lra.
  - apply (IH _ _ _ _ T); [exact HT | | lia].
    unfold slept, add_events, after_clock.
    cbn [now self world].
    rewrite Nat2Z.inj_succ, <- Z.add_1_r, inject_Z_plus in Hm.
    change (inject_Z 1) with 1%Q in Hm.
    set (X := inject_Z (Z.of_nat n)) in *.
    assert (Hx : ((X + 1) * delta == X * delta + delta)%Q) by ring.
    rewrite Hx in Hm. set (Y := (X * delta)%Q) in *. lra.
Qed.

Lemma fuel_by_covers x :
  (x <= inject_Z (Z.of_nat (Z.to_nat (Qceiling (x / delta)))) * delta)%Q.
Proof.
  assert (Hd : ~ (delta == 0)%Q) by lra.
  assert (Hx : (x == (x / delta) * delta)%Q) by (field; exact Hd).
  rewrite Hx at 1. apply Qmult_le_compat_r; [|lra].
  eapply Qle_trans; [apply Qle_ceiling|].
  rewrite <- Zle_Qle. lia.
Qed.

(** The loop of the gate, entered with any timeout other than [inf],
    needs no more than [S n] iterations when [n] advances of [delta] cover
    a finite timeout. *)
Lemma status_check_loop_enough_fuel n fuel st :
  msg_timeout (self st) <> PosInf ->
  (forall T, msg_timeout (self st) = Finite T ->
             (T + (poll_interval - delta) <= inject_Z (Z.of_nat n) * delta)%Q) ->
  (S n <= fuel)%nat ->
  status_check_loop env show_status fuel st =
  status_check_loop env show_status (S n) st /\
  fst (status_check_loop env show_status fuel st) <> OutOfFuel.
Proof.
  intros Hinf Hn Hf. rewrite !status_check_loop_eq.
  assert (He : while_loop env show_status fuel (gate_start env st) PyStatus
                          (loop_entry env st)
               = while_loop env show_status (S n) (gate_start env st) PyStatus
                            (loop_entry env st) /\
               fst (while_loop env show_status (S n) (gate_start env st)
                               PyStatus (loop_entry env st)) <> OutOfFuel).
  { destruct (msg_timeout (self st)) as [T| | |] eqn:HT.
    - apply (while_loop_enough_fuel n fuel _ _ _ T); [exact HT | | exact Hf].
      cbn [loop_entry self world add_events now]. unfold gate_start.
      pose proof (Hn T eq_refl). lra.
    - congruence.
    - destruct fuel as [|fuel]; [lia|].
      rewrite !while_loop_expired
        by (apply guard_minus_infinite; exact HT).
      split; [reflexivity | cbn; discriminate].
    - destruct fuel as [|fuel]; [lia|].
      rewrite !while_loop_expired
        by (apply guard_not_a_number; exact HT).
      split; [reflexivity | cbn; discriminate]. }
  destruct He as (He & Hne). rewrite He. split; [reflexivity | exact Hne].
Qed.

Lemma status_check_loop_ends fuel st :
  msg_timeout (self st) <> PosInf ->
  (fuel_by delta (msg_timeout (self st)) <= fuel)%nat ->
  status_check_loop env show_status fuel st =
  status_check_loop env show_status (fuel_by delta (msg_timeout (self st))) st /\
  fst (status_check_loop env show_status fuel st) <> OutOfFuel.
Proof.
  intros Hinf Hf.
  destruct (msg_timeout (self st)) as [T| | |] eqn:HT;
    cbn [fuel_by] in Hf |- *;
    apply status_check_loop_enough_fuel; try exact Hf;
    try (rewrite HT; discriminate); try congruence;
    intros T' HT'; try congruence.
  rewrite HT in HT'. injection HT' as <-. apply fuel_by_covers.
Qed.

End Advancing.

(** The clock does not run backwards. *)
Hypothesis clock_monotone : forall n, (0 <= lag env n)%Q.

Lemma gate_fuel_covers timeout :
  (timeout * 20 <= inject_Z (Z.of_nat (Z.to_nat (Qceiling (timeout * 20)))))%Q.
Proof.
  eapply Qle_trans; [apply Qle_ceiling|].
  rewrite <- Zle_Qle. lia.
Qed.

Lemma status_check_loop_terminates fuel st :
  msg_timeout (self st) <> PosInf ->
  (gate_fuel (msg_timeout (self st)) <= fuel)%nat ->
  status_check_loop env show_status fuel st =
  status_check_loop env show_status (gate_fuel (msg_timeout (self st))) st /\
  fst (status_check_loop env show_status fuel st) <> OutOfFuel.
Proof.
  intros Hinf Hf.
  assert (Ha : forall n, (poll_interval <= poll_interval + lag env n)%Q).
  { intros n. pose proof (clock_monotone n). lra. }
  destruct (msg_timeout (self st)) as [T| | |] eqn:HT;
    cbn [gate_fuel] in Hf |- *;
    apply (status_check_loop_enough_fuel poll_interval Ha);
    try exact Hf; try (rewrite HT; discriminate); try congruence;
    intros T' HT'; try congruence.
  rewrite HT in HT'. injection HT' as <-.
  pose proof (gate_fuel_covers T). unfold poll_interval. lra.
Qed.

(** With the pipeline built and a timeout other than [inf], the loop comes
    to one of its two ends. *)
Lemma status_check_loop_total fuel st :
  msg_timeout (self st) <> PosInf ->
  (gate_fuel (msg_timeout (self st)) <= fuel)%nat ->
  pipeline (self st) <> None ->
  exists g s st',
    status_check_loop env show_status fuel st = (Ok (g, s), st') /\
    (g = READY \/ g = TIMED_OUT).
Proof.
  intros HT Hf P.
  destruct (status_check_loop_terminates fuel st HT Hf) as (_ & Hn).
  destruct (status_check_loop env show_status fuel st) as [r st'] eqn:L.
  pose proof (status_check_loop_spec _ _ _ _ _ _ L) as (_ & evs & _ & Ho).
  destruct r as [[g s]|e|]; cbn [loop_outcome fst] in *.
  - exists g, s, st'. split; [reflexivity|].
    destruct Ho as (_ & [(-> & _) | (-> & _)]); auto.
  - destruct Ho as (_ & Ho & _). contradiction.
  - contradiction.
Qed.

End Termination.

(** ** The status display does not interfere *)

Section Display.

Variable env : Env.

Lemma sim_refl st : sim st st.
Proof. repeat split. Qed.

Lemma mute_app tr1 tr2 : mute (tr1 ++ tr2) = mute tr1 ++ mute tr2.
Proof. apply filter_app. Qed.

Lemma related_ret A (a : A) : related (ret a) (ret a).
Proof. intros st1 st2 H. split; [reflexivity | exact H]. Qed.

Lemma related_raise A e : related (@raise A e) (@raise A e).
Proof. intros st1 st2 H. split; [reflexivity | exact H]. Qed.

Lemma related_out_of_fuel A : related (@out_of_fuel A) (@out_of_fuel A).
Proof. intros st1 st2 H. split; [reflexivity | exact H]. Qed.

Lemma related_bind A B (m1 m2 : M A) (k1 k2 : A -> M B) :
  related m1 m2 -> (forall a, related (k1 a) (k2 a)) ->
  related (bind m1 k1) (bind m2 k2).
Proof.
  intros Hm Hk st1 st2 H. unfold bind.
  destruct (Hm st1 st2 H) as (Hr & Hs).
  destruct (m1 st1) as [r1 st1'], (m2 st2) as [r2 st2']. cbn in Hr, Hs.
  subst r2. destruct r1 as [a|e|]; cbn; auto. apply Hk. exact Hs.
Qed.

Lemma related_if A (b : bool) (m1 m2 n1 n2 : M A) :
  related m1 n1 -> related m2 n2 ->
  related (if b then m1 else m2) (if b then n1 else n2).
Proof. destruct b; auto. Qed.

Lemma related_get_self : related get_self get_self.
Proof.
  intros st1 st2 H. split; [|exact H]. cbn. destruct H as (-> & _). reflexivity.
Qed.

Lemma related_get_now : related get_now get_now.
Proof.
  intros st1 st2 H. split; [|exact H]. cbn. destruct H as (_ & -> & _).
  reflexivity.
Qed.

Lemma related_get_current_idx : related get_current_idx get_current_idx.
Proof.
  intros st1 st2 H. split; [|exact H]. cbn. destruct H as (_ & _ & -> & _).
  reflexivity.
Qed.

Lemma related_set_self f : related (set_self f) (set_self f).
Proof.
  intros st1 st2 (Hs & Hn & Hi & Hy & Ht). split; [reflexivity|].
  unfold set_self, sim. cbn [fst snd self world]. rewrite Hs. auto.
Qed.

Lemma related_log e : related (log e) (log e).
Proof.
  intros st1 st2 (Hs & Hn & Hi & Hy & Ht). split; [reflexivity|].
  repeat split; cbn; try assumption.
  rewrite !mute_app, Ht. reflexivity.
Qed.

(** An update of the display against no update at all. *)
Lemma related_status_update m :
  related (status_update PyStatus m) (ret tt).
Proof.
  intros st1 st2 (Hs & Hn & Hi & Hy & Ht). split; [reflexivity|].
  repeat split; cbn; try assumption.
  rewrite mute_app, Ht. cbn. apply app_nil_r.
Qed.

Lemma related_yield : related (yield env) (yield env).
Proof.
  intros st1 st2 (Hs & Hn & Hi & Hy & Ht). split; [reflexivity|].
  unfold yield, set_world, env_step, sim.
  cbn [snd self world now current_idx yields trace].
  rewrite Hn, Hi, Hy. auto.
Qed.

Ltac rel_step :=
  first
    [ apply related_bind; [|intros ?]
    | apply related_if
    | apply related_ret | apply related_raise | apply related_out_of_fuel
    | apply related_get_self | apply related_get_now
    | apply related_get_current_idx | apply related_set_self
    | apply related_log | apply related_yield ].

Lemma related_sleep secs : related (sleep secs) (sleep secs).
Proof.
  unfold sleep. rel_step; [rel_step|].
  intros st1 st2 (Hs & Hn & Hi & Hy & Ht). split; [reflexivity|].
  unfold set_world, sim.
  cbn [snd self world now current_idx yields trace].
  rewrite Hn. auto.
Qed.

Lemma related_perf_counter : related (perf_counter env) (perf_counter env).
Proof. unfold perf_counter. repeat rel_step. Qed.

Lemma related_get_pipeline : related get_pipeline get_pipeline.
Proof.
  unfold get_pipeline. rel_step; [rel_step|]. destruct (pipeline a); rel_step.
Qed.

Lemma related_read_current_idx : related read_current_idx read_current_idx.
Proof.
  unfold read_current_idx. rel_step; [apply related_get_pipeline|].
  repeat rel_step.
Qed.

Lemma related_call A s (result : A) :
  related (call env s result) (call env s result).
Proof. unfold call. repeat rel_step. Qed.

Lemma related_poll start :
  related (poll env true start PyStatus) (poll env false start PyStatus).
Proof.
  unfold poll. rel_step; [apply related_perf_counter|].
  rel_step; [rel_step|].
  rel_step; [|rel_step].
  rel_step; [apply related_read_current_idx|].
  rel_step; [rel_step|].
  rel_step; [apply related_status_update|].
  rel_step; [apply related_sleep | rel_step].
Qed.

Lemma related_while_loop fuel start :
  related (while_loop env true fuel start PyStatus)
          (while_loop env false fuel start PyStatus).
Proof.
  induction fuel as [|fuel IH]; intros st1 st2 H.
  - apply related_out_of_fuel. exact H.
  - rewrite !while_loop_S.
    destruct (related_poll start st1 st2 H) as (Hr & Hs).
    destruct (poll_cases env true start PyStatus st1)
      as [G | G P | G P E | b G P E D S | G P E D];
      cbn [fst snd] in Hr, Hs;
      destruct (poll env false start PyStatus st2) as [r2 st2'];
      cbn [fst snd] in Hr, Hs; subst r2; cbn [fst snd]; auto.
Qed.

Lemma related_with_console_status A (body1 body2 : PyVal -> M A) :
  related (body1 PyStatus) (body2 PyStatus) ->
  related (with_console_status body1) (with_console_status body2).
Proof.
  intros Hb. unfold with_console_status.
  rel_step; [rel_step|].
  intros st1 st2 H. destruct (Hb st1 st2 H) as (Hr & Hs).
  destruct (body1 PyStatus st1) as [r1 st1'], (body2 PyStatus st2) as [r2 st2'].
  cbn [fst snd] in *. split; [exact Hr|].
  apply related_log. exact Hs.
Qed.

Lemma related_status_check_loop fuel :
  related (status_check_loop env true fuel) (status_check_loop env false fuel).
Proof.
  unfold status_check_loop, console_print.
  rel_step; [apply related_perf_counter|].
  rel_step; [rel_step|]. rel_step; [rel_step|].
  apply related_with_console_status. apply related_while_loop.
Qed.

Lemma related_readiness_gate fuel :
  related (readiness_gate env true fuel) (readiness_gate env false fuel).
Proof.
  unfold readiness_gate, console_print.
  rel_step; [apply related_status_check_loop|].
  rel_step; [apply related_get_pipeline|].
  repeat rel_step.
Qed.

Lemma related_setup test_mode fuel :
  related (setup env true test_mode fuel) (setup env false test_mode fuel).
Proof.
  unfold setup, console_print.
  repeat first
    [ apply related_readiness_gate
    | apply related_call
    | rel_step ].
Qed.

End Display.

(** ** The steps of [setup] before the gate *)

Section Orchestration.

Variable env : Env.
Variable show_status : bool.

Lemma bind_call A B s (result : A) (k : A -> M B) st :
  bind (call env s result) k st =
  if fails env s then (Raise (Propagated s), called env s st)
  else k result (called env s st).
Proof.
  unfold call, bind, log, yield, set_world, called, add_events.
  cbn [fst snd self world]. destruct (fails env s); reflexivity.
Qed.

Lemma bind_set_self B f (k : unit -> M B) st :
  bind (set_self f) k st = k tt (mkSt (f (self st)) (world st)).
Proof. reflexivity. Qed.

Lemma bind_get_self B (k : ROSTrainer -> M B) st :
  bind get_self k st = k (self st) st.
Proof. reflexivity. Qed.

Lemma bind_console_print B m (k : unit -> M B) st :
  bind (console_print m) k st =
  k tt (mkSt (self st) (add_events [ConsolePrint m] (world st))).
Proof. reflexivity. Qed.

Lemma bind_ret A B (a : A) (k : A -> M B) st : bind (ret a) k st = k a st.
Proof. reflexivity. Qed.

Lemma bind_bind A B C (m : M A) (k : A -> M B) (h : B -> M C) st :
  bind (bind m k) h st = bind m (fun a => bind (k a) h) st.
Proof.
  unfold bind. destruct (m st) as [[a|e|] st1]; reflexivity.
Qed.

Lemma trace_env_step w : trace (env_step env w) = trace w.
Proof. reflexivity. Qed.

Lemma trace_add_events evs w : trace (add_events evs w) = trace w ++ evs.
Proof. reflexivity. Qed.

Lemma prefix_of_app A (l1 l2 : list A) : prefix_of l1 (l1 ++ l2).
Proof. exists l2. reflexivity. Qed.

(** [setup] either stops at the first collaborator that raises, having made
    the calls up to that one in order, or makes all of them and runs the
    gate. *)
Lemma setup_cases test_mode fuel st :
  (exists s done,
      fails env s = true /\
      fst (setup env show_status test_mode fuel st) = Raise (Propagated s) /\
      trace (world (snd (setup env show_status test_mode fuel st))) =
      trace (world st) ++ done /\
      prefix_of done (pre_gate_events (self st)) /\
      last done (ConsolePrint BufferFilled) = Call s)
  \/
  (exists st_g,
      enters_gate env test_mode st st_g /\
      setup env show_status test_mode fuel st =
      readiness_gate env show_status fuel st_g).
Proof.
  destruct (setup env show_status test_mode fuel st) as [r st'] eqn:E.
  cbn [fst snd].
  unfold setup in E. unfold pre_gate_events, viewer_events, writer_events.
  remember (readiness_gate env show_status fuel) as gate eqn:Hgate.
  destruct (is_viewer_legacy_enabled (config (self st))
            && (local_rank (self st) =? 0)) eqn:L;
  destruct (is_viewer_enabled (config (self st))
            && (local_rank (self st) =? 0)) eqn:V;
  cbn [app].
  all: repeat
    (cbn beta in E;
     first
       [ rewrite bind_call in E; unfold called in E; cbn [self world] in E;
         match type of E with
         | context [fails env ?s] =>
             let F := fresh "F" in
             destruct (fails env s) eqn:F;
             [ inversion E; subst r st'; clear E;
               left; exists s; eexists; split; [exact F|];
               split; [reflexivity|];
               split; [cbn [self world];
                       repeat first [rewrite trace_env_step | rewrite trace_add_events];
                       rewrite <- ?app_assoc; cbn [app]; reflexivity|];
               split; [eexists; cbn [app]; reflexivity | reflexivity]
             | ]
         end
       | rewrite bind_set_self in E; cbn [self world] in E
       | rewrite bind_get_self in E;
         cbn [self world config local_rank set_viewer_state set_optimizers
              set_pipeline] in E;
         rewrite ?L, ?V in E
       | rewrite bind_console_print in E; cbn [self world] in E
       | rewrite bind_ret in E
       | rewrite bind_bind in E ]).
  all: right; eexists; (split; [|symmetry; exact E]).
  all: constructor;
    unfold pre_gate_events, viewer_events, writer_events; rewrite ?L, ?V;
    cbn [self world config local_rank msg_timeout
         num_msgs_to_start dataset pipeline set_viewer_state set_optimizers
         set_pipeline set_callbacks];
    repeat first [rewrite trace_env_step | rewrite trace_add_events];
    rewrite <- ?app_assoc; cbn [app]; reflexivity.
Qed.

(** The steps before the gate go through the phases in order. *)
Lemma pre_gate_events_staged t :
  StronglySorted in_stage_order (pre_gate_events t).
Proof.
  unfold pre_gate_events, viewer_events, writer_events.
  destruct (is_viewer_legacy_enabled (config t) && (local_rank t =? 0));
  destruct (is_viewer_enabled (config t) && (local_rank t =? 0));
  cbn [app];
  repeat (constructor; [|repeat constructor; unfold in_stage_order; cbn; lia]);
  constructor.
Qed.

Lemma staged_prefix (l1 l2 : list Event) :
  StronglySorted in_stage_order (l1 ++ l2) ->
  StronglySorted in_stage_order l1.
Proof.
  induction l1 as [|a l1 IH]; intros H; [constructor|].
  cbn in H. inversion H as [|? ? Hs Hf]; subst.
  constructor; [apply IH; exact Hs|].
  apply Forall_app in Hf. apply Hf.
Qed.

Lemma gate_event_stage e : is_gate_event e = true -> stage e = 7%nat.
Proof. destruct e as [s|m| | | | | | |]; try reflexivity; [discriminate|].
  destruct m; try reflexivity; discriminate.
Qed.

Lemma stage_le_7 e : (stage e <= 7)%nat.
Proof.
  destruct e as [s|m| | | | | | |]; cbn; try lia.
  - destruct s; cbn; lia.
  - destruct m; cbn; lia.
Qed.

(** A run of earlier phases followed by events of the gate is in order. *)
Lemma staged_then_gate (l1 l2 : list Event) :
  StronglySorted in_stage_order l1 ->
  forallb is_gate_event l2 = true ->
  StronglySorted in_stage_order (l1 ++ l2).
Proof.
  intros H1 H2. rewrite forallb_forall in H2.
  assert (G : StronglySorted in_stage_order l2).
  { induction l2 as [|b l2 IH]; constructor.
    - apply IH. intros x Hx. apply H2. right. exact Hx.
    - apply Forall_forall. intros x Hx. unfold in_stage_order.
      rewrite (gate_event_stage b), (gate_event_stage x); auto.
      + apply H2. right. exact Hx.
      + apply H2. left. reflexivity. }
  induction H1 as [|a l1 Hs IH Hf]; [exact G|].
  cbn. constructor; [exact IH|].
  apply Forall_app. split; [exact Hf|].
  apply Forall_forall. intros x Hx. unfold in_stage_order.
  rewrite (gate_event_stage x) by (apply H2; exact Hx). apply stage_le_7.
Qed.

(** In the required order the checkpoint is restored before the callbacks
    are built. *)
Lemma checkpoint_before_callbacks t tr1 tr2 :
  prefix_of (tr1 ++ Call get_training_callbacks :: tr2) (pre_gate_events t) ->
  In (Call load_checkpoint) tr1.
Proof.
  intros (rest & H). revert H.
  unfold pre_gate_events, viewer_events, writer_events.
  destruct (is_viewer_legacy_enabled (config t) && (local_rank t =? 0));
  destruct (is_viewer_enabled (config t) && (local_rank t =? 0));
  cbn [app]; intros H.
  all: repeat
    (destruct tr1 as [|? tr1];
     [ cbn in H; first [discriminate H | cbn; tauto]
     | cbn in H; injection H as <- H ]).
  all: destruct tr1; discriminate H.
Qed.

(** The gate, entered with the pipeline built, does not raise: when its
    loop is over it stores the dataset handle and reports success, on either
    way out of the loop. *)
Lemma readiness_gate_spec fuel st p r st' :
  pipeline (self st) = Some p ->
  readiness_gate env show_status fuel st = (r, st') ->
  (r = OutOfFuel /\
   fst (status_check_loop env show_status fuel st) = OutOfFuel)
  \/
  (r = Ok tt /\
   dataset (self st') = Some (train_dataset p) /\
   exists g s st1,
     status_check_loop env show_status fuel st = (Ok (g, s), st1) /\
     (g = READY \/ g = TIMED_OUT) /\
     trace (world st') =
     trace (world st1) ++ [ReadTrainDataset; ConsolePrint BufferFilled]).
Proof.
  intros P. rewrite readiness_gate_eq.
  destruct (status_check_loop env show_status fuel st) as [r1 st1] eqn:L.
  pose proof (status_check_loop_spec _ _ _ _ _ _ L) as (Hs & evs & Ht & Ho).
  destruct r1 as [[g s]|e|].
  - rewrite Hs, P.
    rewrite (status_check_loop_truthy _ _ _ _ _ _ _ L). cbn [negb].
    intros H. inversion H; subst. right. split; [reflexivity|].
    split; [reflexivity|].
    exists g, s, st1. split; [reflexivity|]. split.
    + cbn in Ho. destruct Ho as (_ & [(-> & _) | (-> & _)]); auto.
    + unfold add_events. cbn [world trace]. rewrite <- app_assoc. reflexivity.
  - cbn in Ho. destruct Ho as (_ & Ho & _). congruence.
  - intros H. inversion H; subst. left. split; reflexivity.
Qed.

(** A gate that has timed out reports success all the same. *)
Lemma timed_out_gate_returns_normally fuel st p s st1 :
  pipeline (self st) = Some p ->
  status_check_loop env show_status fuel st = (Ok (TIMED_OUT, s), st1) ->
  fst (readiness_gate env show_status fuel st) = Ok tt.
Proof.
  intros P L.
  destruct (readiness_gate env show_status fuel st) as [r st'] eqn:R.
  destruct (readiness_gate_spec _ _ _ _ _ P R) as [(_ & O) | (-> & _)].
  - rewrite L in O. discriminate O.
  - reflexivity.
Qed.

(** [setup] ends whenever the loop of its gate does. *)
Lemma setup_ends_with_gate test_mode fuel st :
  (forall st_g, msg_timeout (self st_g) = msg_timeout (self st) ->
                fst (status_check_loop env show_status fuel st_g) <> OutOfFuel) ->
  fst (setup env show_status test_mode fuel st) <> OutOfFuel.
Proof.
  intros Hloop.
  destruct (setup_cases test_mode fuel st)
    as [(s & done & _ & Hr & _) | (st_g & Hg & He)].
  - rewrite Hr. discriminate.
  - rewrite He.
    destruct (readiness_gate env show_status fuel st_g) as [r st'] eqn:R.
    destruct (readiness_gate_spec _ _ _ _ _ (gate_pipeline _ _ _ _ Hg) R)
      as [(_ & O) | (-> & _)]; [|cbn; discriminate].
    exfalso. revert O. apply Hloop. exact (gate_msg_timeout _ _ _ _ Hg).
Qed.

Lemma setup_terminates test_mode fuel st :
  (forall n, (0 <= lag env n)%Q) ->
  msg_timeout (self st) <> PosInf ->
  (gate_fuel (msg_timeout (self st)) <= fuel)%nat ->
  fst (setup env show_status test_mode fuel st) <> OutOfFuel.
Proof.
  intros Hlag HT Hf. apply setup_ends_with_gate. intros st_g E.
  apply (status_check_loop_terminates env show_status Hlag fuel st_g);
    rewrite E; assumption.
Qed.

End Orchestration.

(** ** Runs of the gate that end at the first or second look at the clock *)

Section ShortRuns.

Variable env : Env.
Variable show_status : bool.

(** The deadline has passed at the first look at the clock. *)
Lemma gate_expired_at_once fuel st :
  guard env (gate_start env st) (loop_entry env st) = false ->
  status_check_loop env show_status (S fuel) st =
  (Ok (TIMED_OUT, PyStatus),
   status_stopped
     (mkSt (self st) (after_clock env (world (loop_entry env st))))).
Proof.
  intros G. rewrite status_check_loop_eq, while_loop_S.
  rewrite poll_expired by exact G. reflexivity.
Qed.

(** The first poll finds enough. *)
Lemma gate_ready_at_first_poll fuel st p :
  pipeline (self st) = Some p ->
  guard env (gate_start env st) (loop_entry env st) = true ->
  enough (self st) (next_idx env (loop_entry env st)) ->
  status_check_loop env show_status (S fuel) st =
  (Ok (READY, PyBool true),
   status_stopped
     (mkSt (self st)
           (add_events [ReadCurrentIdx (next_idx env (loop_entry env st))]
                       (after_clock env (world (loop_entry env st)))))).
Proof.
  intros P G E. rewrite status_check_loop_eq, while_loop_S.
  rewrite (poll_ready _ _ _ _ _ p) by assumption. reflexivity.
Qed.

(** The first poll does not find enough, the second does. *)
Lemma gate_ready_at_second_poll fuel st p :
  pipeline (self st) = Some p ->
  guard env (gate_start env st) (loop_entry env st) = true ->
  ~ enough (self st) (next_idx env (loop_entry env st)) ->
  guard env (gate_start env st)
        (after_wait env show_status (loop_entry env st)) = true ->
  enough (self st)
         (next_idx env (after_wait env show_status (loop_entry env st))) ->
  fst (status_check_loop env show_status (S (S fuel)) st)
  = Ok (READY, PyBool true).
Proof.
  intros P G1 E1 G2 E2. rewrite status_check_loop_eq, while_loop_S.
  rewrite (poll_waiting _ _ _ _ p) by assumption.
  fold (after_wait env show_status (loop_entry env st)).
  rewrite while_loop_S.
  rewrite (poll_ready _ _ _ _ _ p) by assumption. reflexivity.
Qed.

(** The gate is [READY] exactly when one of the counts it read was
    enough. *)
Lemma gate_ready_iff fuel st g s st' :
  status_check_loop env show_status fuel st = (Ok (g, s), st') ->
  g = READY <->
  Exists (enough (self st))
         (observed (since (trace (world st)) (trace (world st')))).
Proof.
  intros H. apply status_check_loop_spec in H.
  destruct H as (_ & evs & Ht & Ho). rewrite Ht, since_app.
  rewrite !observed_app. cbn [observed app]. rewrite app_nil_r.
  cbn in Ho. destruct Ho as (_ & [(-> & _ & obs & v & -> & Hv & _)
                                 | (-> & _ & Hall)]).
  - split; [intros _ | reflexivity].
    apply Exists_app. right. constructor. exact Hv.
  - split; [discriminate|]. intros Hex. exfalso.
    apply Exists_exists in Hex. destruct Hex as (v & Hin & Hv).
    rewrite Forall_forall in Hall. exact (Hall v Hin Hv).
Qed.

End ShortRuns.

(** ** The two ways a run of [setup] can go *)

Section Runs.

Variable env : Env.
Variable show_status : bool.

Lemma same_settings_refl t : same_settings t t.
Proof. repeat split. Qed.

Lemma same_settings_trans t1 t2 t3 :
  same_settings t1 t2 -> same_settings t2 t3 -> same_settings t1 t3.
Proof.
  unfold same_settings. intros H1 H2.
  repeat match goal with H : _ /\ _ |- _ => destruct H end.
  repeat split; congruence.
Qed.

Ltac earlier_calls_returned :=
  let s0 := fresh "s0" in
  let Hin := fresh "Hin" in
  intros s0 Hin; cbn in Hin;
  repeat (destruct Hin as [Hin|Hin];
          [first [discriminate Hin | injection Hin as <-; assumption]|]);
  contradiction.

Ltac read_trace :=
  cbn [self world];
  repeat first [rewrite (trace_env_step env) | rewrite trace_add_events];
  rewrite <- ?app_assoc; cbn [app]; reflexivity.

(** Every run of [setup] is cut short by the first collaborator that
    raises, or builds the trainer and runs the gate. *)
Lemma setup_runs test_mode fuel st :
  (exists s done st',
      setup env show_status test_mode fuel st = (Raise (Propagated s), st') /\
      cut_short env s done st st')
  \/
  (exists st_g,
      built env test_mode st st_g /\
      (forall s0, In (Call s0) (pre_gate_events (self st)) ->
                  fails env s0 = false) /\
      setup env show_status test_mode fuel st =
      readiness_gate env show_status fuel st_g).
Proof.
  destruct (setup env show_status test_mode fuel st) as [r st'] eqn:E.
  unfold setup in E.
  remember (readiness_gate env show_status fuel) as gate eqn:Hgate.
  destruct (is_viewer_legacy_enabled (config (self st))
            && (local_rank (self st) =? 0)) eqn:L;
  destruct (is_viewer_enabled (config (self st))
            && (local_rank (self st) =? 0)) eqn:V.
  all: repeat
    (cbn beta in E;
     first
       [ rewrite bind_call in E; unfold called in E; cbn [self world] in E;
         match type of E with
         | context [fails env ?s] =>
             let F := fresh "F" in
             destruct (fails env s) eqn:F;
             [ inversion E; subst r st'; clear E;
               left; exists s; eexists; eexists; split; [reflexivity|];
               constructor;
               [ exact F
               | read_trace
               | unfold pre_gate_events, viewer_events, writer_events;
                 rewrite ?L, ?V; eexists; cbn [app]; reflexivity
               | reflexivity
               | earlier_calls_returned
               | repeat split
               | reflexivity ]
             | ]
         end
       | rewrite bind_set_self in E; cbn [self world] in E
       | rewrite bind_get_self in E;
         cbn [self world config local_rank set_viewer_state set_optimizers
              set_pipeline] in E;
         rewrite ?L, ?V in E
       | rewrite bind_console_print in E; cbn [self world] in E
       | rewrite bind_ret in E
       | rewrite bind_bind in E ]).
  all: right; eexists; (split; [|split; [|symmetry; exact E]]).
  all: first
    [ unfold pre_gate_events, viewer_events, writer_events;
      rewrite ?L, ?V; cbn [app]; earlier_calls_returned
    | constructor;
      [ unfold pre_gate_events, viewer_events, writer_events;
        rewrite ?L, ?V; read_trace
      | repeat split
      | reflexivity
      | reflexivity
      | unfold expected_viewer; rewrite ?V; reflexivity
      | reflexivity
      | reflexivity ] ].
Qed.

End Runs.

Lemma last_in (l : list Event) d x : last l d = x -> x <> d -> In x l.
Proof.
  induction l as [|a l IH]; intros H Hd.
  - cbn in H. congruence.
  - destruct l as [|b l]; [left; exact H|].
    right. apply IH; assumption.
Qed.

Lemma prefix_of_in (l1 l2 : list Event) x : prefix_of l1 l2 -> In x l1 -> In x l2.
Proof. intros (rest & ->) H. apply in_or_app. left. exact H. Qed.

(** ** The first events of the gate *)

Section GateBegins.

Variable env : Env.
Variable show_status : bool.

(** However it ends, the gate begins by reading the clock, announcing the
    wait and starting the status display. *)
Lemma readiness_gate_begins fuel st :
  exists rest,
    trace (world (snd (readiness_gate env show_status fuel st)))
    = trace (world st)
      ++ PerfCounter (gate_start env st)
         :: ConsolePrint (WaitingToReceive (num_msgs_to_start (self st)))
         :: StatusStart :: rest.
Proof.
  rewrite readiness_gate_eq.
  destruct (status_check_loop env show_status fuel st) as [r st1] eqn:L.
  pose proof (status_check_loop_spec _ _ _ _ _ _ L) as (_ & evs & Ht & _).
  destruct r as [[g s]|e|]; cbn [snd].
  - destruct (pipeline (self st1)) as [p|]; cbn [snd].
    + destruct (negb (truthy s)); cbn [snd world];
        rewrite ?trace_add_events; cbn [world]; rewrite ?trace_add_events, Ht;
        rewrite <- !app_assoc; cbn [app]; eexists; reflexivity.
    + rewrite Ht. cbn [app]. eexists; reflexivity.
  - rewrite Ht. cbn [app]. eexists; reflexivity.
  - rewrite Ht. cbn [app]. eexists; reflexivity.
Qed.

End GateBegins.

(** ** A loop that never ends *)

Section Endless.

Variable env : Env.
Variable show_status : bool.

Lemma count_at_next st :
  next_idx env st = count_at env (world st) (S (yields (world st))).
Proof. unfold next_idx, count_at, after_clock. cbn. lia. Qed.

(** With a timeout of [inf] the guard never fails: while the buffer does
    not come to hold enough, the loop uses up whatever fuel it is given. *)
Lemma while_loop_never_ends fuel : forall start st,
  msg_timeout (self st) = PosInf ->
  pipeline (self st) <> None ->
  (forall n, (yields (world st) < n)%nat ->
             ~ enough (self st) (count_at env (world st) n)) ->
  fst (while_loop env show_status fuel start PyStatus st) = OutOfFuel.
Proof.
  induction fuel as [|fuel IH]; intros start st HT P Hst; [reflexivity|].
  rewrite while_loop_S.
  destruct (poll_cases env show_status start PyStatus st)
    as [G | G Pn | G Pp E | b G Pp E D S | G Pp E D].
  - rewrite (guard_infinite _ _ _ HT) in G. discriminate G.
  - contradiction.
  - exfalso. rewrite count_at_next in E.
    apply (Hst _ (Nat.lt_succ_diag_r _) E).
  - discriminate.
  - apply IH; cbn [self world]; [exact HT | exact P |].
    intros n Hn. unfold slept, add_events, after_clock in Hn |- *.
    cbn [yields] in Hn.
    match goal with
    | |- ~ enough _ (count_at env ?w n) =>
        replace (count_at env w n) with (count_at env (world st) n)
          by (unfold count_at; cbn; lia)
    end.
    apply Hst. lia.
Qed.

Lemma status_check_loop_never_ends fuel st :
  msg_timeout (self st) = PosInf ->
  pipeline (self st) <> None ->
  (forall n, (yields (world st) < n)%nat ->
             ~ enough (self st) (count_at env (world st) n)) ->
  fst (status_check_loop env show_status fuel st) = OutOfFuel.
Proof.
  intros HT P Hst. rewrite status_check_loop_eq. cbn [fst].
  apply while_loop_never_ends; cbn [loop_entry self world];
    [exact HT | exact P |].
  intros n Hn. unfold add_events, after_clock in Hn |- *. cbn [yields] in Hn.
  match goal with
  | |- ~ enough _ (count_at env ?w n) =>
      replace (count_at env w n) with (count_at env (world st) n)
        by (unfold count_at; cbn; lia)
  end.
  apply Hst. lia.
Qed.

End Endless.

(** ** Properties of the specification *)

(** *** Outcome of the gate *)

(** [setup] never raises the [NameError] of line 136: by the time line 135
    tests [status], the name is bound to [True] or to the [Status] object of
    line 122, never to the [False] of line 118. *)
Lemma setup_never_raises_NameError env show_status test_mode fuel st :
  fst (setup env show_status test_mode fuel st) <> Raise NameError.
Proof.
  destruct (setup_cases env show_status test_mode fuel st)
    as [(s & done & _ & Hr & _) | (st_g & Hg & He)].
  - rewrite Hr. discriminate.
  - rewrite He.
    destruct (readiness_gate env show_status fuel st_g) as [r st'] eqn:R.
    destruct (readiness_gate_spec _ _ _ _ _ _ _ (gate_pipeline _ _ _ _ Hg) R)
      as [(-> & _) | (-> & _)]; cbn; discriminate.
Qed.

(** C1, evaluated on the code: in the stalled-buffer scenario (ten images
    required within five seconds, the count stays at three) the gate leaves
    its loop through the deadline, every poll having read three, and [setup]
    nevertheless returns normally, its last act being to print the success
    message.  The specification asks for a fatal error here. *)
Theorem stalled_setup_returns_normally :
  fst (status_check_loop stalled_env true (gate_fuel 5)
                         (at_gate stalled_config 0))
  = Ok (TIMED_OUT, PyStatus) /\
  fst (readiness_gate stalled_env true (gate_fuel 5)
                      (at_gate stalled_config 0))
  = Ok tt /\
  fst (setup stalled_env true mode_val (gate_fuel 5) (fresh stalled_config))
  = Ok tt /\
  observed (trace (world (snd (setup stalled_env true mode_val (gate_fuel 5)
                                     (fresh stalled_config)))))
  = [3; 3; 3; 3] /\
  last (trace (world (snd (setup stalled_env true mode_val (gate_fuel 5)
                                 (fresh stalled_config)))))
       StatusStart
  = ConsolePrint BufferFilled.
Proof. vm_compute. repeat split. Qed.

(** C2, as stated, fails: in the stalled-buffer scenario the gate times out
    and the trainer's [dataset], unset before, holds the data manager's
    handle afterwards. *)
Lemma stalled_gate_captures_dataset :
  fst (status_check_loop stalled_env true (gate_fuel 5)
                         (at_gate stalled_config 0))
  = Ok (TIMED_OUT, PyStatus) /\
  dataset (self (at_gate stalled_config 0)) = None /\
  dataset (self (snd (readiness_gate stalled_env true (gate_fuel 5)
                                     (at_gate stalled_config 0))))
  = Some 7%nat.
Proof. vm_compute. repeat split. Qed.

(** C2, amended: with the pipeline built, whenever the loop of the gate
    comes to an end, [READY] or [TIMED_OUT], line 133 has stored the data
    manager's [train_dataset] in the trainer's [dataset]; and with a clock
    that does not run backwards and a timeout other than [inf] the loop does
    come to an end. *)
Theorem gate_captures_dataset_on_every_exit env show_status fuel st p :
  pipeline (self st) = Some p ->
  (forall g s,
      fst (status_check_loop env show_status fuel st) = Ok (g, s) ->
      (g = READY \/ g = TIMED_OUT) /\
      dataset (self (snd (readiness_gate env show_status fuel st)))
      = Some (train_dataset p)) /\
  ((forall n, (0 <= lag env n)%Q) ->
   msg_timeout (self st) <> PosInf ->
   (gate_fuel (msg_timeout (self st)) <= fuel)%nat ->
   exists g s,
     fst (status_check_loop env show_status fuel st) = Ok (g, s) /\
     (g = READY \/ g = TIMED_OUT) /\
     dataset (self (snd (readiness_gate env show_status fuel st)))
     = Some (train_dataset p)).
Proof.
  intros P.
  assert (A : forall g s,
             fst (status_check_loop env show_status fuel st) = Ok (g, s) ->
             (g = READY \/ g = TIMED_OUT) /\
             dataset (self (snd (readiness_gate env show_status fuel st)))
             = Some (train_dataset p)).
  { intros g s L.
    destruct (readiness_gate env show_status fuel st) as [r st'] eqn:R.
    destruct (readiness_gate_spec _ _ _ _ _ _ _ P R)
      as [(_ & F) | (_ & D & g' & s' & st1 & L' & Hg & _)].
    - rewrite L in F. discriminate F.
    - rewrite L' in L. cbn [fst] in L. injection L as <- <-.
      split; [exact Hg | exact D]. }
  split; [exact A|].
  intros Hlag HT Hf.
  destruct (status_check_loop_total env show_status Hlag fuel st HT Hf)
    as (g & s & st1 & L & Hg); [congruence|].
  exists g, s. rewrite L. split; [reflexivity|].
  apply (A g s). rewrite L. reflexivity.
Qed.

Lemma gate_captures_dataset_on_every_exit_witness :
  ((READY = READY \/ READY = TIMED_OUT) /\
   dataset (self (snd (readiness_gate
                         (burst_env 2 3) true 2
                         (at_gate (mkConfig PosInf 3 false false) 0))))
   = Some 7%nat) /\
  exists g s,
    fst (status_check_loop stalled_env true (gate_fuel 5)
                           (at_gate stalled_config 0)) = Ok (g, s) /\
    (g = READY \/ g = TIMED_OUT) /\
    dataset (self (snd (readiness_gate stalled_env true (gate_fuel 5)
                                       (at_gate stalled_config 0))))
    = Some 7%nat.
Proof.
  split.
  - apply (proj1 (gate_captures_dataset_on_every_exit
                    (burst_env 2 3) true 2%nat
                    (at_gate (mkConfig PosInf 3 false false) 0)
                    (mkPipeline 1%nat 7%nat) eq_refl)
                 READY (PyBool true)).
    vm_compute. reflexivity.
  - apply (proj2 (gate_captures_dataset_on_every_exit
                    stalled_env true (gate_fuel 5) (at_gate stalled_config 0)
                    (mkPipeline 1%nat 7%nat) eq_refl)).
    + intros n. cbn. discriminate.
    + cbn. discriminate.
    + apply le_n.
Defined.

(** C3: with the display updates of lines 129-130 or without them, the
    gate ends in the same state of its state machine, [setup] and the gate
    return or raise alike, and the trainer, the clock, the buffer count and
    every event other than the updates themselves are the same. *)
Theorem status_display_is_cosmetic env test_mode fuel st :
  fst (status_check_loop env true fuel st)
  = fst (status_check_loop env false fuel st) /\
  fst (readiness_gate env true fuel st)
  = fst (readiness_gate env false fuel st) /\
  sim (snd (readiness_gate env true fuel st))
      (snd (readiness_gate env false fuel st)) /\
  fst (setup env true test_mode fuel st)
  = fst (setup env false test_mode fuel st) /\
  sim (snd (setup env true test_mode fuel st))
      (snd (setup env false test_mode fuel st)).
Proof.
  pose proof (sim_refl st) as H.
  split; [apply (related_status_check_loop env fuel st st H)|].
  split; [apply (related_readiness_gate env fuel st st H)|].
  split; [apply (related_readiness_gate env fuel st st H)|].
  split; apply (related_setup env test_mode fuel st st H).
Qed.

(** *** The transition to [READY] *)

(** C4: for a required count [k >= 1],
    - a poll made before the deadline while the gate is waiting takes it to
      [READY] exactly when the count it reads is at least [k - 1], and
      leaves it waiting exactly when the count is below;
    - a gate whose loop is over is [READY] exactly when one of the counts it
      read was at least [k - 1], and with a clock that does not run
      backwards and a timeout other than [inf] the loop does get over;
    - with [k = 1], a first poll that reads zero makes the gate [READY];
    - a count of zero at the first poll and of [k] at the second, both
      before the deadline, makes the gate [READY]. *)
Theorem gate_ready_exactly_when_enough env show_status k (Hk : 1 <= k) :
  (forall start st,
      num_msgs_to_start (self st) = k ->
      pipeline (self st) <> None ->
      guard env start st = true ->
      (fst (poll env show_status start PyStatus st) = Ok (READY, PyBool true)
       <-> k - 1 <= next_idx env st) /\
      (fst (poll env show_status start PyStatus st) = Ok (WAITING, PyStatus)
       <-> next_idx env st < k - 1)) /\
  (forall fuel st,
      num_msgs_to_start (self st) = k ->
      pipeline (self st) <> None ->
      (forall n, (0 <= lag env n)%Q) ->
      msg_timeout (self st) <> PosInf ->
      (gate_fuel (msg_timeout (self st)) <= fuel)%nat ->
      exists g s st',
        status_check_loop env show_status fuel st = (Ok (g, s), st') /\
        (g = READY \/ g = TIMED_OUT) /\
        (g = READY <->
         Exists (fun v => k - 1 <= v)
                (observed (since (trace (world st)) (trace (world st')))))) /\
  (forall fuel st g s st',
      num_msgs_to_start (self st) = k ->
      status_check_loop env show_status fuel st = (Ok (g, s), st') ->
      (g = READY <->
       Exists (fun v => k - 1 <= v)
              (observed (since (trace (world st)) (trace (world st')))))) /\
  (forall fuel st,
      k = 1 ->
      num_msgs_to_start (self st) = k ->
      pipeline (self st) <> None ->
      guard env (gate_start env st) (loop_entry env st) = true ->
      next_idx env (loop_entry env st) = 0 ->
      (1 <= fuel)%nat ->
      fst (status_check_loop env show_status fuel st)
      = Ok (READY, PyBool true)) /\
  (forall fuel st,
      num_msgs_to_start (self st) = k ->
      pipeline (self st) <> None ->
      guard env (gate_start env st) (loop_entry env st) = true ->
      next_idx env (loop_entry env st) = 0 ->
      guard env (gate_start env st)
            (after_wait env show_status (loop_entry env st)) = true ->
      next_idx env (after_wait env show_status (loop_entry env st)) = k ->
      (2 <= fuel)%nat ->
      fst (status_check_loop env show_status fuel st)
      = Ok (READY, PyBool true)).
Proof.
  split; [|split; [|split; [|split]]].
  - intros start st K P G.
    destruct (pipeline (self st)) as [p|] eqn:Pp; [clear P | congruence].
    destruct (Z_le_dec (k - 1) (next_idx env st)) as [E|E].
    + rewrite (poll_ready _ _ _ _ _ p) by (unfold enough; auto; lia).
      cbn [fst]. split; split; intros; try reflexivity; try lia; discriminate.
    + rewrite (poll_waiting _ _ _ _ p) by (unfold enough; auto; lia).
      cbn [fst]. split; split; intros; try reflexivity; try lia; discriminate.
  - intros fuel st K P Hlag HT Hf. subst k.
    destruct (status_check_loop_total env show_status Hlag fuel st HT Hf P)
      as (g & s & st' & L & Hg).
    exists g, s, st'. split; [exact L|]. split; [exact Hg|].
    exact (gate_ready_iff env show_status fuel st g s st' L).
  - intros fuel st g s st' K L. subst k.
    exact (gate_ready_iff env show_status fuel st g s st' L).
  - intros fuel st K1 K P G I F.
    destruct (pipeline (self st)) as [p|] eqn:Pp; [clear P | congruence].
    destruct fuel as [|fuel]; [lia|].
    rewrite (gate_ready_at_first_poll _ _ _ _ p); auto.
    unfold enough. lia.
  - intros fuel st K P G1 I1 G2 I2 F.
    destruct (pipeline (self st)) as [p|] eqn:Pp; [clear P | congruence].
    destruct fuel as [|[|fuel]]; try lia.
    destruct (Z_le_dec (k - 1) 0) as [E|E].
    + rewrite (gate_ready_at_first_poll _ _ _ _ p); auto.
      unfold enough. lia.
    + apply (gate_ready_at_second_poll _ _ _ _ p); auto; unfold enough; lia.
Qed.

Lemma gate_ready_exactly_when_enough_witness :
  fst (poll (steady_env 0) true 0 PyStatus
            (at_gate (mkConfig 5 1 false false) 0))
  = Ok (READY, PyBool true) /\
  (exists g s st',
      status_check_loop (steady_env 0) true (gate_fuel 5)
                        (at_gate (mkConfig 5 1 false false) 0)
      = (Ok (g, s), st') /\
      (g = READY \/ g = TIMED_OUT) /\
      (g = READY <->
       Exists (fun v => 1 - 1 <= v)
              (observed
                 (since (trace (world (at_gate (mkConfig 5 1 false false) 0)))
                        (trace (world st')))))) /\
  (READY = READY <->
   Exists (fun v => 3 - 1 <= v)
          (observed
             (since (trace (world (at_gate (mkConfig PosInf 3 false false) 0)))
                    (trace (world (snd (status_check_loop
                                          (burst_env 2 3) true 2
                                          (at_gate (mkConfig PosInf 3 false false)
                                                   0)))))))) /\
  fst (status_check_loop (steady_env 0) true 1
                         (at_gate (mkConfig 5 1 false false) 0))
  = Ok (READY, PyBool true) /\
  fst (status_check_loop (burst_env 2 3) true 2
                         (at_gate (mkConfig 5 3 false false) 0))
  = Ok (READY, PyBool true).
Proof.
  destruct (gate_ready_exactly_when_enough (steady_env 0) true 1 ltac:(lia))
    as (A & B & _ & C & _).
  destruct (gate_ready_exactly_when_enough (burst_env 2 3) true 3 ltac:(lia))
    as (_ & _ & E & _ & D).
  split; [|split; [|split; [|split]]].
  - apply A.
    + reflexivity.
    + discriminate.
    + vm_compute. reflexivity.
    + vm_compute. discriminate.
  - apply B.
    + reflexivity.
    + discriminate.
    + intros n. cbn. discriminate.
    + cbn. discriminate.
    + apply le_n.
  - apply (E 2%nat (at_gate (mkConfig PosInf 3 false false) 0)
             READY (PyBool true)).
    + reflexivity.
    + vm_compute. reflexivity.
  - apply C.
    + reflexivity.
    + reflexivity.
    + discriminate.
    + vm_compute. reflexivity.
    + vm_compute. reflexivity.
    + lia.
  - apply D.
    + reflexivity.
    + discriminate.
    + vm_compute. reflexivity.
    + vm_compute. reflexivity.
    + vm_compute. reflexivity.
    + vm_compute. reflexivity.
    + lia.
Defined.

(** *** A timeout of zero *)

(** C5, as stated, fails: one image is required, the buffer already holds
    five on entry, the timeout is zero, and the gate ends [TIMED_OUT]
    without having read the buffer once. *)
Lemma zero_timeout_ignores_ready_buffer :
  enough (self (at_gate (mkConfig 0 1 false false) 5))
         (current_idx (world (at_gate (mkConfig 0 1 false false) 5))) /\
  fst (status_check_loop still_env true (gate_fuel 0)
                         (at_gate (mkConfig 0 1 false false) 5))
  = Ok (TIMED_OUT, PyStatus) /\
  observed (trace (world (snd (status_check_loop
                                 still_env true (gate_fuel 0)
                                 (at_gate (mkConfig 0 1 false false) 5)))))
  = [].
Proof. vm_compute. repeat split. discriminate. Qed.

(** C5, amended: with a timeout of zero and a clock that does not run
    backwards, the gate ends [TIMED_OUT] at its first look at the clock,
    without reading the buffer and without sleeping, whatever the buffer
    holds on entry. *)
Theorem zero_timeout_times_out_without_polling env show_status fuel st T :
  msg_timeout (self st) = Finite T ->
  (T == 0)%Q ->
  (0 <= lag env (S (yields (world st))))%Q ->
  (1 <= fuel)%nat ->
  fst (status_check_loop env show_status fuel st) = Ok (TIMED_OUT, PyStatus) /\
  observed (since (trace (world st))
                  (trace (world (snd (status_check_loop env show_status fuel st)))))
  = [] /\
  sleeps (since (trace (world st))
                (trace (world (snd (status_check_loop env show_status fuel st)))))
  = 0%nat.
Proof.
  intros HT T0 L F. destruct fuel as [|fuel]; [lia|].
  rewrite gate_expired_at_once.
  - split; [reflexivity|].
    unfold status_stopped, loop_entry, add_events, after_clock.
    cbn [fst snd self world trace yields now current_idx].
    rewrite <- !app_assoc, since_app. split; reflexivity.
  - rewrite (guard_finite _ _ _ T) by exact HT. apply Qltb_false.
    unfold gate_start, loop_entry, add_events, after_clock.
    cbn [self world now yields]. rewrite T0.
    cbn [yields] in L. lra.
Qed.

Lemma zero_timeout_times_out_without_polling_witness :
  fst (status_check_loop still_env true 1 (at_gate (mkConfig 0 1 false false) 5))
  = Ok (TIMED_OUT, PyStatus).
Proof.
  apply (zero_timeout_times_out_without_polling
           still_env true 1%nat (at_gate (mkConfig 0 1 false false) 5) 0%Q).
  - reflexivity.
  - reflexivity.
  - vm_compute. discriminate.
  - lia.
Defined.

(** *** The required count is not validated *)

(** C6, as stated, fails: a configuration that requires zero images, or
    minus three, is constructed, the trainer takes the value over, and
    [setup] runs to a normal return, its gate satisfied by the first poll of
    an empty buffer. *)
Lemma nonpositive_num_msgs_is_accepted :
  num_msgs_to_start (ROSTrainer_init (mkConfig 300 0 false false) 0 0) = 0 /\
  fst (setup (steady_env 0) true mode_val (gate_fuel 300)
             (fresh (mkConfig 300 0 false false)))
  = Ok tt /\
  observed (trace (world (snd (setup (steady_env 0) true mode_val
                                     (gate_fuel 300)
                                     (fresh (mkConfig 300 0 false false))))))
  = [0] /\
  num_msgs_to_start (ROSTrainer_init (mkConfig 300 (-3) false false) 0 0) = -3 /\
  fst (setup (steady_env 0) true mode_val (gate_fuel 300)
             (fresh (mkConfig 300 (-3) false false)))
  = Ok tt.
Proof. vm_compute. repeat split. Qed.

(** C6, amended: nothing checks [num_msgs_to_start].  The constructor
    copies whatever integer the configuration holds, and for a value of zero
    or less the first poll made before the deadline that reads a count of
    zero or more makes the gate [READY]; [setup] then goes on to a normal
    return. *)
Theorem nonpositive_num_msgs_is_ready_at_first_poll
  env show_status fuel cfg rank wsize :
  cfg_num_msgs_to_start cfg <= 0 ->
  num_msgs_to_start (ROSTrainer_init cfg rank wsize) = cfg_num_msgs_to_start cfg /\
  forall st,
    num_msgs_to_start (self st) = cfg_num_msgs_to_start cfg ->
    pipeline (self st) <> None ->
    guard env (gate_start env st) (loop_entry env st) = true ->
    0 <= next_idx env (loop_entry env st) ->
    (1 <= fuel)%nat ->
    fst (status_check_loop env show_status fuel st) = Ok (READY, PyBool true) /\
    fst (readiness_gate env show_status fuel st) = Ok tt.
Proof.
  intros K. split; [reflexivity|].
  intros st N P G I F.
  destruct (pipeline (self st)) as [p|] eqn:Pp; [clear P | congruence].
  destruct fuel as [|fuel]; [lia|].
  assert (L : fst (status_check_loop env show_status (S fuel) st)
              = Ok (READY, PyBool true)).
  { rewrite (gate_ready_at_first_poll _ _ _ _ p); auto. unfold enough. lia. }
  split; [exact L|].
  destruct (readiness_gate env show_status (S fuel) st) as [r st'] eqn:R.
  destruct (readiness_gate_spec _ _ _ _ _ _ _ Pp R) as [(_ & O) | (-> & _)].
  - congruence.
  - reflexivity.
Qed.

Lemma nonpositive_num_msgs_is_ready_at_first_poll_witness :
  num_msgs_to_start (ROSTrainer_init (mkConfig 300 (-3) false false) 0 0) = -3 /\
  fst (status_check_loop (steady_env 0) true 1
                         (at_gate (mkConfig 300 (-3) false false) 0))
  = Ok (READY, PyBool true) /\
  fst (readiness_gate (steady_env 0) true 1
                      (at_gate (mkConfig 300 (-3) false false) 0))
  = Ok tt.
Proof.
  destruct (nonpositive_num_msgs_is_ready_at_first_poll
              (steady_env 0) true 1%nat (mkConfig 300 (-3) false false) 0 0)
    as (A & B).
  - cbn. lia.
  - split; [exact A|].
    apply B.
    + reflexivity.
    + discriminate.
    + vm_compute. reflexivity.
    + vm_compute. discriminate.
    + lia.
Defined.

(** *** Order of the steps *)

(** C7: the events of any run of [setup] are an initial segment [done] of
    the steps before the gate (pipeline, optimizers, legacy warning and
    viewer if any, viewer warnings, checkpoint, callbacks, event writer,
    local writer, configuration record, profiler) followed by events of the
    gate.  So they go through the phases in the required order; the gate
    contributes events only when every step before it has been made; and
    whenever the callbacks are built the checkpoint has been restored
    before.  When no collaborator raises, every step before the gate is
    made and the gate begins: it reads the clock, announces the wait and
    starts the status display.  When one does raise, [setup] stops at the
    first call that raises, which it hands on, every earlier call has
    returned, and the gate does not begin. *)
Theorem setup_steps_in_order env show_status test_mode fuel st :
  exists done gate_evs,
    trace (world (snd (setup env show_status test_mode fuel st)))
    = trace (world st) ++ done ++ gate_evs /\
    prefix_of done (pre_gate_events (self st)) /\
    forallb is_gate_event gate_evs = true /\
    StronglySorted in_stage_order (done ++ gate_evs) /\
    (gate_evs <> [] -> done = pre_gate_events (self st)) /\
    (forall tr1 tr2,
        done = tr1 ++ Call get_training_callbacks :: tr2 ->
        In (Call load_checkpoint) tr1) /\
    ((forall s, In (Call s) (pre_gate_events (self st)) ->
                fails env s = false) ->
     done = pre_gate_events (self st) /\
     exists t rest,
       gate_evs
       = PerfCounter t
         :: ConsolePrint (WaitingToReceive (num_msgs_to_start (self st)))
         :: StatusStart :: rest) /\
    (forall s, In (Call s) (pre_gate_events (self st)) ->
               fails env s = true ->
     exists first,
       fst (setup env show_status test_mode fuel st)
       = Raise (Propagated first) /\
       fails env first = true /\
       last done (ConsolePrint BufferFilled) = Call first /\
       (forall s0, In (Call s0) (removelast done) -> fails env s0 = false) /\
       gate_evs = []).
Proof.
  assert (Hstaged : forall done gate_evs,
             prefix_of done (pre_gate_events (self st)) ->
             forallb is_gate_event gate_evs = true ->
             StronglySorted in_stage_order (done ++ gate_evs)).
  { intros done gate_evs (rest & Hp) Hall. apply staged_then_gate; [|exact Hall].
    apply (staged_prefix done rest). rewrite <- Hp.
    apply pre_gate_events_staged. }
  destruct (setup_runs env show_status test_mode fuel st)
    as [(s & done & st' & He & Hc) | (st_g & Hb & Hall & He)].
  - destruct Hc as [Hf Ht Hp Hl Hearlier _ _].
    exists done, []. rewrite He. cbn [fst snd]. rewrite app_nil_r.
    split; [exact Ht|]. split; [exact Hp|]. split; [reflexivity|].
    split; [rewrite <- (app_nil_r done); apply Hstaged; auto|].
    split; [congruence|].
    split; [intros tr1 tr2 ->; eapply checkpoint_before_callbacks; exact Hp|].
    split.
    + intros Hno. exfalso.
      assert (Hin : In (Call s) (pre_gate_events (self st))).
      { apply (prefix_of_in done); [exact Hp|].
        apply (last_in _ (ConsolePrint BufferFilled)); [exact Hl|discriminate]. }
      rewrite (Hno s Hin) in Hf. discriminate Hf.
    + intros s1 _ _. exists s. repeat split; auto.
  - rewrite He.
    destruct (frame_readiness_gate env show_status fuel st_g)
      as (_ & _ & evs & Ht & Hgate).
    destruct (readiness_gate_begins env show_status fuel st_g)
      as (rest & Hbegin).
    rewrite Ht in Hbegin. apply app_inv_head in Hbegin.
    assert (Hfull : prefix_of (pre_gate_events (self st))
                              (pre_gate_events (self st))).
    { exists []. rewrite app_nil_r. reflexivity. }
    exists (pre_gate_events (self st)), evs.
    split; [rewrite Ht, (built_trace _ _ _ _ Hb), app_assoc; reflexivity|].
    split; [exact Hfull|].
    split; [exact Hgate|].
    split; [apply Hstaged; auto|].
    split; [reflexivity|].
    split.
    { intros tr1 tr2 E. eapply (checkpoint_before_callbacks (self st)).
      rewrite E. exists []. rewrite app_nil_r. reflexivity. }
    split.
    + intros _. split; [reflexivity|].
      exists (gate_start env st_g), rest. rewrite Hbegin.
      destruct (built_settings _ _ _ _ Hb) as (_ & _ & _ & _ & _ & ->).
      reflexivity.
    + intros s Hin Hf. rewrite (Hall s Hin) in Hf. discriminate Hf.
Qed.

Lemma setup_steps_in_order_witness :
  (exists done gate_evs,
      trace (world (snd (setup (steady_env 1) true mode_val (gate_fuel 300)
                               (fresh viewer_config))))
      = trace (world (fresh viewer_config)) ++ done ++ gate_evs /\
      done = pre_gate_events (self (fresh viewer_config)) /\
      exists t rest,
        gate_evs
        = PerfCounter t :: ConsolePrint (WaitingToReceive 10)
          :: StatusStart :: rest) /\
  (exists done gate_evs first,
      trace (world (snd (setup broken_profiler_env true mode_val (gate_fuel 300)
                               (fresh viewer_config))))
      = trace (world (fresh viewer_config)) ++ done ++ gate_evs /\
      fst (setup broken_profiler_env true mode_val (gate_fuel 300)
                 (fresh viewer_config))
      = Raise (Propagated first) /\
      last done (ConsolePrint BufferFilled) = Call first /\
      gate_evs = []).
Proof.
  split.
  - destruct (setup_steps_in_order (steady_env 1) true mode_val (gate_fuel 300)
                                   (fresh viewer_config))
      as (done & gate_evs & Ht & _ & _ & _ & _ & _ & Hall & _).
    exists done, gate_evs. split; [exact Ht|].
    apply Hall. intros s _. reflexivity.
  - destruct (setup_steps_in_order broken_profiler_env true mode_val
                                   (gate_fuel 300) (fresh viewer_config))
      as (done & gate_evs & Ht & _ & _ & _ & _ & _ & _ & Hcut).
    destruct (Hcut setup_profiler) as (first & Hr & _ & Hl & _ & Hg).
    + vm_compute. auto 20.
    + reflexivity.
    + exists done, gate_evs, first. auto.
Defined.

(** C8: on the primary process with legacy visualisation requested, once
    the pipeline and the optimizers are built the warning is printed and the
    next step of [setup] is taken; and when no collaborator raises, every
    step up to the profiler is made and [setup] goes on into the gate, whose
    outcome is the outcome of [setup]. *)
Theorem legacy_viewer_warning_does_not_abort env show_status test_mode fuel st :
  is_viewer_legacy_enabled (config (self st)) = true ->
  local_rank (self st) = 0 ->
  fails env pipeline_setup = false ->
  fails env setup_optimizers = false ->
  (exists next rest,
      trace (world (snd (setup env show_status test_mode fuel st)))
      = trace (world st)
        ++ [Call pipeline_setup; Call setup_optimizers;
            ConsolePrint LegacyViewerNotSupported; Call next] ++ rest /\
      (next = ros_viewer \/ next = check_viewer_warnings)) /\
  ((forall s, fails env s = false) ->
   exists st_g,
     enters_gate env test_mode st st_g /\
     In (ConsolePrint LegacyViewerNotSupported) (pre_gate_events (self st)) /\
     setup env show_status test_mode fuel st
     = readiness_gate env show_status fuel st_g).
Proof.
  intros L R F1 F2.
  assert (Hpre : exists next tl,
             pre_gate_events (self st)
             = [Call pipeline_setup; Call setup_optimizers;
                ConsolePrint LegacyViewerNotSupported; Call next] ++ tl /\
             (next = ros_viewer \/ next = check_viewer_warnings)).
  { unfold pre_gate_events, viewer_events. rewrite L, R. cbn [andb Z.eqb app].
    destruct (is_viewer_enabled (config (self st))); cbn [andb app];
      eexists _, _; split; try reflexivity; auto. }
  destruct Hpre as (next & tl & Hpre & Hnext).
  destruct (setup_cases env show_status test_mode fuel st)
    as [(s & done & Fs & _ & Ht & (rest' & Hp) & Hl) | (st_g & Hg & He)].
  - split.
    + exists next. rewrite Ht. rewrite Hpre in Hp.
      destruct done as [|e1 [|e2 [|e3 [|e4 done]]]]; cbn in Hp, Hl.
      * discriminate Hl.
      * injection Hp as <- _. injection Hl as <-. congruence.
      * injection Hp as <- <- _. injection Hl as <-. congruence.
      * injection Hp as <- <- <- _. discriminate Hl.
      * injection Hp as <- <- <- <- _. exists done. split; [reflexivity|exact Hnext].
    + intros Hno. rewrite Hno in Fs. discriminate Fs.
  - split.
    + exists next. rewrite He.
      destruct (frame_readiness_gate env show_status fuel st_g)
        as (_ & _ & evs & Ht & _).
      rewrite Ht, (gate_trace _ _ _ _ Hg), Hpre.
      exists (tl ++ evs). split; [|exact Hnext].
      rewrite <- !app_assoc. reflexivity.
    + intros _. exists st_g. split; [exact Hg|]. split; [|exact He].
      rewrite Hpre. cbn. auto.
Qed.

Lemma legacy_viewer_warning_does_not_abort_witness :
  (exists next rest,
      trace (world (snd (setup (steady_env 1) true mode_val (gate_fuel 300)
                               (fresh legacy_config))))
      = trace (world (fresh legacy_config))
        ++ [Call pipeline_setup; Call setup_optimizers;
            ConsolePrint LegacyViewerNotSupported; Call next] ++ rest /\
      (next = ros_viewer \/ next = check_viewer_warnings)) /\
  exists st_g,
    enters_gate (steady_env 1) mode_val (fresh legacy_config) st_g /\
    In (ConsolePrint LegacyViewerNotSupported)
       (pre_gate_events (self (fresh legacy_config))) /\
    setup (steady_env 1) true mode_val (gate_fuel 300) (fresh legacy_config)
    = readiness_gate (steady_env 1) true (gate_fuel 300) st_g.
Proof.
  destruct (legacy_viewer_warning_does_not_abort
              (steady_env 1) true mode_val (gate_fuel 300) (fresh legacy_config))
    as (A & B).
  - reflexivity.
  - reflexivity.
  - reflexivity.
  - reflexivity.
  - split; [exact A|]. apply B. intros s. reflexivity.
Defined.

(** *** Frame of the gate *)

(** C9: from entering the gate to its return or raise, no attribute of the
    trainer other than [dataset] changes, and the buffer count changes by
    exactly what the subscriber thread appended in the meantime: the gate
    itself writes nothing to it. *)
Theorem gate_only_writes_dataset env show_status fuel st :
  same_but_dataset (self st) (self (snd (readiness_gate env show_status fuel st)))
  /\
  current_idx (world (snd (readiness_gate env show_status fuel st)))
  = current_idx (world st)
    + (arrived env (yields (world (snd (readiness_gate env show_status fuel st))))
       - arrived env (yields (world st))).
Proof.
  destruct (frame_readiness_gate env show_status fuel st) as (Hs & Hw & _).
  split; [exact Hs|]. unfold own_writes in Hw. lia.
Qed.

(** *** Termination *)

(** C10, as stated, fails: [inf] is a float and is not negative.  With it
    the guard of line 123 never fails, and while the buffer stays short of
    the required count the loop polls for ever: however many iterations it
    is allowed, it has not ended and has slept that many times. *)
Lemma infinite_timeout_loop_never_ends :
  float_leb 0 (msg_timeout (self (at_gate (mkConfig PosInf 10 false false) 0)))
  = true /\
  forall fuel,
    fst (status_check_loop (steady_env 0) true fuel
                           (at_gate (mkConfig PosInf 10 false false) 0))
    = OutOfFuel /\
    sleeps (since (trace (world (at_gate (mkConfig PosInf 10 false false) 0)))
                  (trace (world (snd (status_check_loop
                                        (steady_env 0) true fuel
                                        (at_gate (mkConfig PosInf 10 false false)
                                                 0))))))
    = fuel.
Proof.
  split; [reflexivity|]. intros fuel.
  assert (L : fst (status_check_loop
                     (steady_env 0) true fuel
                     (at_gate (mkConfig PosInf 10 false false) 0))
              = OutOfFuel).
  { apply status_check_loop_never_ends.
    - reflexivity.
    - discriminate.
    - intros n _.
      assert (H : forall m, arrived (steady_env 0) m = 0)
        by (induction m as [|m IH]; [reflexivity | cbn; rewrite IH; reflexivity]).
      unfold enough, count_at. rewrite !H. cbn. lia. }
  split; [exact L|].
  destruct (status_check_loop (steady_env 0) true fuel
                              (at_gate (mkConfig PosInf 10 false false) 0))
    as [r st'] eqn:R.
  cbn [fst snd] in *. subst r.
  apply status_check_loop_spec in R. destruct R as (_ & evs & Ht & Ho).
  cbn [loop_outcome] in Ho.
  rewrite Ht, since_app, !sleeps_app. cbn [sleeps]. lia.
Qed.

(** C10, amended: for every timeout other than [inf], finite of either
    sign, [-inf] or [nan], and every required count, the loop of the gate
    ends as soon as each iteration that sleeps advances the clock by at
    least some [delta > 0]: some number of iterations is enough, more fuel
    changes nothing, and [setup] ends with its loop. *)
Theorem polling_loop_terminates env show_status st delta :
  (0 < delta)%Q ->
  (forall n, (delta <= poll_interval + lag env n)%Q) ->
  msg_timeout (self st) <> PosInf ->
  exists enough_fuel,
    forall fuel,
      (enough_fuel <= fuel)%nat ->
      fst (status_check_loop env show_status fuel st) <> OutOfFuel /\
      status_check_loop env show_status fuel st
      = status_check_loop env show_status enough_fuel st /\
      (forall test_mode,
          fst (setup env show_status test_mode fuel st) <> OutOfFuel).
Proof.
  intros Hd Hadv HT.
  exists (fuel_by delta (msg_timeout (self st))). intros fuel Hf.
  destruct (status_check_loop_ends env show_status delta Hd Hadv fuel st HT Hf)
    as (He & Hn).
  split; [exact Hn|].
  split; [exact He|].
  intros test_mode. apply setup_ends_with_gate. intros st_g E.
  apply (status_check_loop_ends env show_status delta Hd Hadv fuel st_g);
    rewrite E; assumption.
Qed.

Lemma polling_loop_terminates_witness :
  exists enough_fuel,
    forall fuel,
      (enough_fuel <= fuel)%nat ->
      fst (status_check_loop (steady_env 0) true fuel (at_gate stalled_config 0))
      <> OutOfFuel /\
      status_check_loop (steady_env 0) true fuel (at_gate stalled_config 0)
      = status_check_loop (steady_env 0) true enough_fuel
                          (at_gate stalled_config 0) /\
      (forall test_mode,
          fst (setup (steady_env 0) true test_mode fuel
                     (at_gate stalled_config 0))
          <> OutOfFuel).
Proof.
  apply (polling_loop_terminates (steady_env 0) true (at_gate stalled_config 0)
                                 (1 # 25)).
  - reflexivity.
  - intros n. cbn. discriminate.
  - cbn. discriminate.
Defined.

(** ** Further properties of the gate *)

Section GateRuns.

Variable env : Env.
Variable show_status : bool.

Lemma display_app tr1 tr2 : display (tr1 ++ tr2) = display tr1 ++ display tr2.
Proof. apply filter_app. Qed.

Lemma sleep_durations_app tr1 tr2 :
  sleep_durations (tr1 ++ tr2) = sleep_durations tr1 ++ sleep_durations tr2.
Proof.
  induction tr1 as [|e tr1 IH]; [reflexivity|].
  destruct e; cbn; rewrite IH; reflexivity.
Qed.

Lemma display_waiting v :
  display (waiting_events show_status v)
  = if show_status then [StatusUpdate (ImagesReceived v)] else [].
Proof. unfold waiting_events. destruct show_status; reflexivity. Qed.

Lemma sleep_durations_waiting v :
  sleep_durations (waiting_events show_status v) = [poll_interval].
Proof. unfold waiting_events. destruct show_status; reflexivity. Qed.

Lemma short_true t v : ~ enough t v -> short t v = true.
Proof.
  intros H. unfold short. apply negb_true_iff. apply geb_not_enough. exact H.
Qed.

Lemma short_false t v : enough t v -> short t v = false.
Proof.
  intros H. unfold short. apply negb_false_iff. apply geb_enough. exact H.
Qed.

(** The events of the gate proper, given those of its loop. *)
Lemma status_check_loop_since fuel st evs :
  trace (world (snd (while_loop env show_status fuel (gate_start env st)
                                PyStatus (loop_entry env st))))
  = trace (world (loop_entry env st)) ++ evs ->
  since (trace (world st))
        (trace (world (snd (status_check_loop env show_status fuel st))))
  = [PerfCounter (gate_start env st);
     ConsolePrint (WaitingToReceive (num_msgs_to_start (self st)));
     StatusStart] ++ evs ++ [StatusStop].
Proof.
  intros H. rewrite status_check_loop_eq. cbn [snd].
  unfold status_stopped. cbn [world]. rewrite trace_add_events, H.
  unfold loop_entry. cbn [world]. rewrite trace_add_events.
  unfold after_clock, gate_start. cbn [trace now].
  rewrite <- !app_assoc. rewrite since_app. reflexivity.
Qed.

(** What the loop shows on the display and how it sleeps: an update for
    each count that falls short, a sleep of one interval after it. *)
Lemma while_loop_display fuel : forall start st,
  exists evs,
    trace (world (snd (while_loop env show_status fuel start PyStatus st)))
    = trace (world st) ++ evs /\
    display evs
    = (if show_status then shown (self st) (observed evs) else []) /\
    sleep_durations evs
    = repeat poll_interval (length (filter (short (self st)) (observed evs))).
Proof.
  induction fuel as [|fuel IH]; intros start st.
  - exists []. cbn. rewrite app_nil_r. destruct show_status; repeat split.
  - rewrite while_loop_S.
    destruct (poll_cases env show_status start PyStatus st)
      as [G | G P | G P E | b G P E D S | G P E D].
    + eexists. split; [reflexivity|]. cbn.
      destruct show_status; split; reflexivity.
    + eexists. split; [reflexivity|]. cbn.
      destruct show_status; split; reflexivity.
    + exists [PerfCounter (now (after_clock env (world st)));
              ReadCurrentIdx (next_idx env st)].
      split; [cbn; rewrite <- app_assoc; reflexivity|].
      unfold shown. cbn [observed filter display is_display_event
                         sleep_durations].
      rewrite (short_false _ _ E). destruct show_status; split; reflexivity.
    + discriminate.
    + destruct (IH start
                  (mkSt (self st)
                        (slept (add_events
                                  (waiting_events show_status (next_idx env st))
                                  (after_clock env (world st))))))
        as (evs & Ht & Hd & Hs).
      cbn [self] in Hd, Hs.
      exists ([PerfCounter (now (after_clock env (world st)))]
              ++ waiting_events show_status (next_idx env st) ++ evs).
      split.
      { rewrite Ht. unfold slept, add_events. cbn [world trace].
        unfold after_clock at 1. cbn [trace].
        rewrite <- !app_assoc. reflexivity. }
      rewrite !display_app, !sleep_durations_app, !observed_app.
      rewrite display_waiting, sleep_durations_waiting, observed_waiting.
      rewrite Hd, Hs. unfold shown.
      cbn [observed display filter is_display_event sleep_durations app].
      rewrite (short_true _ _ E).
      destruct show_status; split; reflexivity.
Qed.

(** The loop breaks on [READY] with the comparison of line 123 true at its
    last look at the clock, and falls out on [TIMED_OUT] with it false. *)
Lemma while_loop_timing fuel : forall start st g s st',
  while_loop env show_status fuel start PyStatus st = (Ok (g, s), st') ->
  (g = TIMED_OUT ->
   float_ltb (Finite (now (world st') - start)) (msg_timeout (self st))
   = false) /\
  (g = READY ->
   float_ltb (Finite (now (world st') - start)) (msg_timeout (self st))
   = true).
Proof.
  induction fuel as [|fuel IH]; intros start st g s st' H.
  - discriminate H.
  - rewrite while_loop_S in H.
    destruct (poll_cases env show_status start PyStatus st)
      as [G | G P | G P E | b G P E D S | G P E D]; try discriminate H.
    + inversion H; subst.
      split; [intros _; exact G | discriminate].
    + inversion H; subst.
      split; [discriminate | intros _; exact G].
    + apply IH in H. exact H.
Qed.

(** When no turn of the environment takes longer than [bound], the loop
    notices a finite deadline within a poll interval and [bound] of it. *)
Lemma while_loop_overshoot bound fuel : forall start st s st' T,
  (forall n, (lag env n <= bound)%Q) ->
  msg_timeout (self st) = Finite T ->
  (now (world st) - start < T + poll_interval)%Q ->
  while_loop env show_status fuel start PyStatus st
  = (Ok (TIMED_OUT, s), st') ->
  (now (world st') - start < T + poll_interval + bound)%Q.
Proof.
  induction fuel as [|fuel IH]; intros start st s st' T Hlag HT Hnow H.
  - discriminate H.
  - rewrite while_loop_S in H.
    pose proof (Hlag (yields (world st))) as Hl.
    destruct (poll_cases env show_status start PyStatus st)
      as [G | G P | G P E | b G P E D S | G P E D]; try discriminate H.
    + inversion H; subst. unfold after_clock. cbn [world now]. lra.
    + apply (IH _ _ _ _ T) in H; [exact H | exact Hlag | exact HT |].
      rewrite (guard_finite _ _ _ _ HT) in G. apply Qltb_true in G.
      unfold slept, add_events. cbn [self world now]. lra.
Qed.

(** A buffer that never comes to hold enough never makes the loop [READY]. *)
Lemma while_loop_starved fuel : forall start st r st',
  (forall n, (yields (world st) < n)%nat ->
             ~ enough (self st) (count_at env (world st) n)) ->
  while_loop env show_status fuel start PyStatus st = (r, st') ->
  forall s, r <> Ok (READY, s).
Proof.
  induction fuel as [|fuel IH]; intros start st r st' Hst H s.
  - inversion H. discriminate.
  - rewrite while_loop_S in H.
    destruct (poll_cases env show_status start PyStatus st)
      as [G | G P | G P E | b G P E D S | G P E D];
      try (inversion H; discriminate).
    + exfalso. rewrite count_at_next in E. apply (Hst _ (Nat.lt_succ_diag_r _) E).
    + eapply IH; [|exact H]. cbn [self world].
      intros n Hn. unfold slept, add_events, after_clock in Hn |- *.
      cbn [yields] in Hn.
      assert (Hc : count_at env
                     {| now := (now (world st) + lag env (yields (world st))
                                + poll_interval)%Q;
                        current_idx := current_idx (world st)
                                       + arrivals env (yields (world st));
                        yields := S (yields (world st));
                        trace := (trace (world st)
                                  ++ [PerfCounter (now (world st)
                                        + lag env (yields (world st)))%Q])
                                 ++ waiting_events show_status (next_idx env st) |}
                     n
                   = count_at env (world st) n).
      { unfold count_at. cbn. lia. }
      cbn [now current_idx yields trace]. rewrite Hc. apply Hst. lia.
Qed.

End GateRuns.

(** ** Further properties, stated *)

(** None of the steps before the gate is an event of the gate. *)
Lemma pre_gate_events_not_gate t e :
  In e (pre_gate_events t) -> is_gate_event e = false.
Proof.
  unfold pre_gate_events, viewer_events, writer_events.
  destruct (is_viewer_legacy_enabled (config t) && (local_rank t =? 0));
  destruct (is_viewer_enabled (config t) && (local_rank t =? 0));
  cbn; intros H;
  repeat (destruct H as [<-|H]; [reflexivity|]); contradiction.
Qed.

(** [setup] assigns none of the settings, however it ends. *)
Lemma setup_same_settings env show_status test_mode fuel st :
  same_settings (self st) (self (snd (setup env show_status test_mode fuel st))).
Proof.
  destruct (setup_runs env show_status test_mode fuel st)
    as [(s & done & st' & He & Hc) | (st_g & Hb & _ & He)]; rewrite He.
  - exact (cut_settings _ _ _ _ _ Hc).
  - eapply same_settings_trans; [exact (built_settings _ _ _ _ Hb)|].
    destruct (frame_readiness_gate env show_status fuel st_g) as (Hs & _).
    unfold same_but_dataset in Hs. unfold same_settings. tauto.
Qed.

(** X1: the only exceptions [setup] raises are those its collaborators
    raise, handed on as they are: an exception out of [setup] is the one a
    step before the gate has raised.  In particular [setup] raises neither
    the [NameError] of line 136 nor an [AttributeError] of its own. *)
Theorem setup_raises_only_what_a_collaborator_raised
  env show_status test_mode fuel st e :
  fst (setup env show_status test_mode fuel st) = Raise e ->
  exists s,
    e = Propagated s /\
    fails env s = true /\
    In (Call s) (pre_gate_events (self st)).
Proof.
  intros H.
  destruct (setup_runs env show_status test_mode fuel st)
    as [(s & done & st' & He & Hc) | (st_g & Hb & _ & He)]; rewrite He in H.
  - cbn in H. injection H as <-. exists s. split; [reflexivity|].
    split; [exact (cut_fails _ _ _ _ _ Hc)|].
    apply (prefix_of_in done); [exact (cut_prefix _ _ _ _ _ Hc)|].
    apply (last_in _ (ConsolePrint BufferFilled));
      [exact (cut_last _ _ _ _ _ Hc) | discriminate].
  - destruct (readiness_gate env show_status fuel st_g) as [r st'] eqn:R.
    destruct (readiness_gate_spec _ _ _ _ _ _ _ (built_pipeline _ _ _ _ Hb) R)
      as [(-> & _) | (-> & _)]; discriminate H.
Qed.

Lemma setup_raises_only_what_a_collaborator_raised_witness :
  exists s,
    Propagated setup_profiler = Propagated s /\
    fails broken_profiler_env s = true /\
    In (Call s) (pre_gate_events (self (fresh viewer_config))).
Proof.
  apply (setup_raises_only_what_a_collaborator_raised
           broken_profiler_env true mode_val 1%nat (fresh viewer_config)).
  vm_compute. reflexivity.
Defined.

(** X2: a collaborator that raises cuts [setup] short at the first call that
    raises.  The calls made are the steps before the gate up to that one, in
    order, all earlier ones having returned; no event of the gate follows;
    the settings and [dataset] are as they were. *)
Theorem failing_collaborator_cuts_setup_short
  env show_status test_mode fuel st s :
  In (Call s) (pre_gate_events (self st)) ->
  fails env s = true ->
  exists s' done,
    fst (setup env show_status test_mode fuel st) = Raise (Propagated s') /\
    cut_short env s' done st (snd (setup env show_status test_mode fuel st)) /\
    forallb (fun e => negb (is_gate_event e)) done = true.
Proof.
  intros Hin Hf.
  destruct (setup_runs env show_status test_mode fuel st)
    as [(s' & done & st' & He & Hc) | (st_g & _ & Hall & _)].
  - exists s', done. rewrite He. split; [reflexivity|]. split; [exact Hc|].
    apply forallb_forall. intros x Hx. apply negb_true_iff.
    apply (pre_gate_events_not_gate (self st)).
    apply (prefix_of_in done); [exact (cut_prefix _ _ _ _ _ Hc) | exact Hx].
  - rewrite (Hall s Hin) in Hf. discriminate Hf.
Qed.

Lemma failing_collaborator_cuts_setup_short_witness :
  exists s' done,
    fst (setup broken_profiler_env true mode_val 1 (fresh viewer_config))
    = Raise (Propagated s') /\
    cut_short broken_profiler_env s' done (fresh viewer_config)
              (snd (setup broken_profiler_env true mode_val 1
                          (fresh viewer_config))) /\
    forallb (fun e => negb (is_gate_event e)) done = true.
Proof.
  apply (failing_collaborator_cuts_setup_short
           broken_profiler_env true mode_val 1%nat (fresh viewer_config)
           setup_profiler).
  - vm_compute. auto 20.
  - reflexivity.
Defined.

(** X3: a run of [setup] that returns leaves the trainer complete: the
    pipeline, the optimizers and the callbacks are those the collaborators
    made, [viewer_state] is the viewer if one was asked for on the primary
    process and [None] otherwise, [dataset] is the pipeline's training
    dataset, and the last thing printed is the success message. *)
Theorem setup_return_leaves_trainer_complete env show_status test_mode fuel st :
  fst (setup env show_status test_mode fuel st) = Ok tt ->
  pipeline (self (snd (setup env show_status test_mode fuel st)))
  = Some (made_pipeline env test_mode) /\
  optimizers (self (snd (setup env show_status test_mode fuel st)))
  = Some (made_optimizers env) /\
  viewer_state (self (snd (setup env show_status test_mode fuel st)))
  = expected_viewer env (self st) /\
  callbacks (self (snd (setup env show_status test_mode fuel st)))
  = Some (made_callbacks env) /\
  dataset (self (snd (setup env show_status test_mode fuel st)))
  = Some (train_dataset (made_pipeline env test_mode)) /\
  last (trace (world (snd (setup env show_status test_mode fuel st)))) StatusStart
  = ConsolePrint BufferFilled.
Proof.
  intros H.
  destruct (setup_runs env show_status test_mode fuel st)
    as [(s & done & st' & He & Hc) | (st_g & Hb & _ & He)]; rewrite He in H |- *.
  - discriminate H.
  - destruct (frame_readiness_gate env show_status fuel st_g) as (Hs & _).
    destruct Hs as (_ & _ & _ & _ & _ & _ & Hp & Ho & Hv & Hk).
    destruct (readiness_gate env show_status fuel st_g) as [r st'] eqn:R.
    cbn [fst snd] in *.
    destruct (readiness_gate_spec _ _ _ _ _ _ _ (built_pipeline _ _ _ _ Hb) R)
      as [(-> & _) | (_ & Hd & g & s1 & st1 & _ & _ & Ht)]; [discriminate H|].
    rewrite Hp, Ho, Hv, Hk, Hd.
    rewrite (built_pipeline _ _ _ _ Hb), (built_optimizers _ _ _ _ Hb),
            (built_viewer _ _ _ _ Hb), (built_callbacks _ _ _ _ Hb).
    repeat split.
    rewrite Ht.
    change [ReadTrainDataset; ConsolePrint BufferFilled]
      with ([ReadTrainDataset] ++ [ConsolePrint BufferFilled]).
    rewrite app_assoc. apply last_last.
Qed.

Lemma setup_return_leaves_trainer_complete_witness :
  pipeline (self (snd (setup (steady_env 1) true mode_val 1
                             (fresh viewer_config))))
  = Some (mkPipeline 1%nat 7%nat) /\
  optimizers (self (snd (setup (steady_env 1) true mode_val 1
                               (fresh viewer_config))))
  = Some 2%nat /\
  viewer_state (self (snd (setup (steady_env 1) true mode_val 1
                                 (fresh viewer_config))))
  = Some (mkViewer 3%nat 4%nat) /\
  callbacks (self (snd (setup (steady_env 1) true mode_val 1
                              (fresh viewer_config))))
  = Some [5%nat; 6%nat] /\
  dataset (self (snd (setup (steady_env 1) true mode_val 1
                            (fresh viewer_config))))
  = Some 7%nat /\
  last (trace (world (snd (setup (steady_env 1) true mode_val 1
                                 (fresh viewer_config))))) StatusStart
  = ConsolePrint BufferFilled.
Proof.
  apply (setup_return_leaves_trainer_complete
           (steady_env 1) true mode_val 1%nat (fresh viewer_config)).
  vm_compute. reflexivity.
Defined.

(** X4: [setup] assigns none of the attributes that [__init__] has set,
    however it ends; so after any run on a trainer fresh from [__init__] the
    trainer's [msg_timeout] and [num_msgs_to_start] are still those of its
    configuration, and [cameras_drawn] is still empty. *)
Theorem setup_keeps_what_init_set env show_status test_mode fuel :
  (forall st,
      same_settings (self st)
                    (self (snd (setup env show_status test_mode fuel st)))) /\
  (forall cfg rank wsize w,
      config (self (snd (setup env show_status test_mode fuel
                               (mkSt (ROSTrainer_init cfg rank wsize) w))))
      = cfg /\
      msg_timeout (self (snd (setup env show_status test_mode fuel
                                    (mkSt (ROSTrainer_init cfg rank wsize) w))))
      = cfg_msg_timeout cfg /\
      num_msgs_to_start (self (snd (setup env show_status test_mode fuel
                                          (mkSt (ROSTrainer_init cfg rank wsize) w))))
      = cfg_num_msgs_to_start cfg /\
      cameras_drawn (self (snd (setup env show_status test_mode fuel
                                      (mkSt (ROSTrainer_init cfg rank wsize) w))))
      = []).
Proof.
  split; [intros st; apply setup_same_settings|].
  intros cfg rank wsize w.
  destruct (setup_same_settings env show_status test_mode fuel
              (mkSt (ROSTrainer_init cfg rank wsize) w))
    as (Hc & _ & _ & Hm & Hd & Hn).
  rewrite Hc, Hm, Hd, Hn. repeat split.
Qed.

(** X5: the viewer is built and the legacy warning printed only on the
    primary process and only when asked for: a call of [ROSViewer] in a run
    of [setup] means the viewer is enabled and the rank is zero, the warning
    means the legacy viewer is enabled and the rank is zero. *)
Theorem viewer_only_when_enabled_on_primary env show_status test_mode fuel st :
  (In (Call ros_viewer)
      (since (trace (world st))
             (trace (world (snd (setup env show_status test_mode fuel st))))) ->
   is_viewer_enabled (config (self st)) = true /\ local_rank (self st) = 0) /\
  (In (ConsolePrint LegacyViewerNotSupported)
      (since (trace (world st))
             (trace (world (snd (setup env show_status test_mode fuel st))))) ->
   is_viewer_legacy_enabled (config (self st)) = true /\ local_rank (self st) = 0).
Proof.
  assert (Hnew : exists done evs,
             since (trace (world st))
                   (trace (world (snd (setup env show_status test_mode fuel st))))
             = done ++ evs /\
             prefix_of done (pre_gate_events (self st)) /\
             forallb is_gate_event evs = true).
  { destruct (setup_runs env show_status test_mode fuel st)
      as [(s & done & st' & He & Hc) | (st_g & Hb & _ & He)]; rewrite He.
    - exists done, []. cbn [snd].
      rewrite (cut_trace _ _ _ _ _ Hc), since_app, app_nil_r.
      split; [reflexivity|]. split; [exact (cut_prefix _ _ _ _ _ Hc)|reflexivity].
    - destruct (frame_readiness_gate env show_status fuel st_g)
        as (_ & _ & evs & Ht & Hall).
      exists (pre_gate_events (self st)), evs.
      rewrite Ht, (built_trace _ _ _ _ Hb), <- app_assoc, since_app.
      split; [reflexivity|]. split; [|exact Hall].
      exists []. rewrite app_nil_r. reflexivity. }
  destruct Hnew as (done & evs & -> & Hp & Hall).
  assert (Hpre : forall x, is_gate_event x = false ->
                           In x (done ++ evs) -> In x (pre_gate_events (self st))).
  { intros x Hx Hin. apply in_app_or in Hin. destruct Hin as [Hin|Hin].
    - exact (prefix_of_in _ _ _ Hp Hin).
    - rewrite forallb_forall in Hall. rewrite (Hall x Hin) in Hx. discriminate Hx. }
  split; intros Hin; apply Hpre in Hin; try reflexivity; revert Hin;
    unfold pre_gate_events, viewer_events, writer_events;
    destruct (is_viewer_legacy_enabled (config (self st))) eqn:L;
    destruct (is_viewer_enabled (config (self st))) eqn:V;
    destruct (Z.eqb_spec (local_rank (self st)) 0) as [R|R];
    cbn; intros Hin; auto;
    repeat (destruct Hin as [Hin|Hin]; [discriminate Hin|]); contradiction.
Qed.

(** What is left of the comparison of line 123 once it has come out false:
    unless the timeout is [nan], the timeout is at most the time elapsed. *)
Lemma float_ltb_false_leb (a : Q) (y : PyFloat) :
  float_ltb (Finite a) y = false -> y <> NaN -> float_leb y (Finite a) = true.
Proof.
  destruct y as [b| | |]; cbn [float_ltb float_leb]; intros H Hn;
    try reflexivity; try discriminate H; try congruence.
  unfold Qltb in H. apply negb_false_iff in H. exact H.
Qed.

(** X6: the gate is [READY] only with the clock before the deadline and
    [TIMED_OUT] only with the clock not before it.  When the loop is over,
    the comparison [elapsed < msg_timeout] of line 123, made by Python's
    rules for floats on the time elapsed since [start], is true after a
    break and false otherwise; and false means [msg_timeout <= elapsed]
    unless the timeout is [nan], with which the loop is left at once and
    neither comparison holds. *)
Theorem gate_ends_on_the_right_side_of_the_deadline
  env show_status fuel st g s st' :
  status_check_loop env show_status fuel st = (Ok (g, s), st') ->
  (g = READY ->
   float_ltb (Finite (now (world st') - gate_start env st))
             (msg_timeout (self st)) = true) /\
  (g = TIMED_OUT ->
   float_ltb (Finite (now (world st') - gate_start env st))
             (msg_timeout (self st)) = false /\
   (msg_timeout (self st) <> NaN ->
    float_leb (msg_timeout (self st))
              (Finite (now (world st') - gate_start env st)) = true) /\
   (msg_timeout (self st) = NaN ->
    float_leb (msg_timeout (self st))
              (Finite (now (world st') - gate_start env st)) = false /\
    observed (since (trace (world st)) (trace (world st'))) = [])).
Proof.
  rewrite status_check_loop_eq.
  destruct (while_loop env show_status fuel (gate_start env st) PyStatus
                       (loop_entry env st)) as [r st1] eqn:W.
  cbn [fst snd]. intros H. inversion H; subst. clear H.
  pose proof (while_loop_timing env show_status _ _ _ _ _ _ W) as (Ht & Hr).
  cbn [status_stopped world add_events now]. cbn [loop_entry self] in Ht, Hr.
  split; [exact Hr|]. intros Hg. specialize (Ht Hg).
  split; [exact Ht|]. split.
  - intros Hn. apply float_ltb_false_leb; assumption.
  - intros Hn. split; [rewrite Hn; reflexivity|].
    destruct fuel as [|fuel]; [discriminate W|].
    rewrite while_loop_expired in W
      by (apply guard_not_a_number; exact Hn).
    inversion W; subst. cbn [world loop_entry].
    unfold add_events, after_clock. cbn [trace].
    rewrite <- !app_assoc, since_app. reflexivity.
Qed.

Lemma gate_ends_on_the_right_side_of_the_deadline_witness :
  float_ltb
    (Finite (now (world (snd (status_check_loop
                                (burst_env 2 3) true 2
                                (at_gate (mkConfig 5 3 false false) 0))))
             - gate_start (burst_env 2 3) (at_gate (mkConfig 5 3 false false) 0)))
    (msg_timeout (self (at_gate (mkConfig 5 3 false false) 0)))
  = true /\
  float_leb
    (msg_timeout (self (at_gate stalled_config 0)))
    (Finite (now (world (snd (status_check_loop stalled_env true (gate_fuel 5)
                                                (at_gate stalled_config 0))))
             - gate_start stalled_env (at_gate stalled_config 0)))
  = true /\
  float_leb
    (msg_timeout (self (at_gate (mkConfig NaN 3 false false) 0)))
    (Finite (now (world (snd (status_check_loop
                                (steady_env 1) true 1
                                (at_gate (mkConfig NaN 3 false false) 0))))
             - gate_start (steady_env 1) (at_gate (mkConfig NaN 3 false false) 0)))
  = false.
Proof.
  split; [|split].
  - apply (gate_ends_on_the_right_side_of_the_deadline
             (burst_env 2 3) true 2%nat (at_gate (mkConfig 5 3 false false) 0)
             READY (PyBool true)).
    + vm_compute. reflexivity.
    + reflexivity.
  - apply (gate_ends_on_the_right_side_of_the_deadline
             stalled_env true (gate_fuel 5) (at_gate stalled_config 0)
             TIMED_OUT PyStatus).
    + vm_compute. reflexivity.
    + reflexivity.
    + cbn. discriminate.
  - apply (gate_ends_on_the_right_side_of_the_deadline
             (steady_env 1) true 1%nat (at_gate (mkConfig NaN 3 false false) 0)
             TIMED_OUT PyStatus).
    + vm_compute. reflexivity.
    + reflexivity.
    + reflexivity.
Defined.

(** X7: the gate does not overrun its deadline by more than a poll interval
    and one turn of the environment: with a timeout that is not negative and
    no turn longer than [bound], a gate that ends [TIMED_OUT] has a finite
    timeout and does so with less than [msg_timeout + 0.05 + bound] elapsed
    since [start].  (With [inf] the gate never ends [TIMED_OUT].) *)
Theorem gate_overruns_deadline_by_less_than_a_poll
  env show_status fuel st s st' bound :
  (forall n, (lag env n <= bound)%Q) ->
  float_leb 0 (msg_timeout (self st)) = true ->
  status_check_loop env show_status fuel st = (Ok (TIMED_OUT, s), st') ->
  exists T,
    msg_timeout (self st) = Finite T /\
    (0 <= T)%Q /\
    (now (world st') - gate_start env st < T + poll_interval + bound)%Q.
Proof.
  intros Hlag HT. rewrite status_check_loop_eq.
  destruct (while_loop env show_status fuel (gate_start env st) PyStatus
                       (loop_entry env st)) as [r st1] eqn:W.
  cbn [fst snd]. intros H. inversion H; subst. clear H.
  destruct (msg_timeout (self st)) as [T| | |] eqn:ET;
    cbn [float_leb] in HT; try discriminate HT.
  - apply Qle_bool_iff in HT.
    exists T. split; [reflexivity|]. split; [exact HT|].
    apply (while_loop_overshoot env show_status bound _ _ _ _ _ T) in W;
      [| exact Hlag | exact ET |].
    + cbn [status_stopped world add_events now]. exact W.
    + unfold loop_entry, gate_start, add_events, poll_interval.
      cbn [self world now]. lra.
  - exfalso.
    pose proof (while_loop_timing env show_status _ _ _ _ _ _ W) as (Ht & _).
    specialize (Ht eq_refl). cbn [loop_entry self] in Ht.
    rewrite ET in Ht. discriminate Ht.
Qed.

Lemma gate_overruns_deadline_by_less_than_a_poll_witness :
  exists T,
    msg_timeout (self (at_gate stalled_config 0)) = Finite T /\
    (0 <= T)%Q /\
    (now (world (snd (status_check_loop stalled_env true (gate_fuel 5)
                                        (at_gate stalled_config 0))))
     - gate_start stalled_env (at_gate stalled_config 0)
     < T + poll_interval + 1)%Q.
Proof.
  apply (gate_overruns_deadline_by_less_than_a_poll
           stalled_env true (gate_fuel 5) (at_gate stalled_config 0) PyStatus
           (snd (status_check_loop stalled_env true (gate_fuel 5)
                                   (at_gate stalled_config 0)))
           1%Q).
  - intros n. cbn. discriminate.
  - reflexivity.
  - vm_compute. reflexivity.
Defined.

(** X8: a buffer that never comes to hold enough makes the gate time out
    unless the timeout is [inf].  With the pipeline built and a count that
    stays below [num_msgs_to_start - 1] at every later turn of the
    environment: for a timeout other than [inf] and a clock that does not
    run backwards the loop ends and ends [TIMED_OUT]; for a timeout of
    [inf] the loop does not end, whatever the number of iterations it is
    allowed. *)
Theorem starved_gate_times_out env show_status st :
  pipeline (self st) <> None ->
  (forall n, (yields (world st) < n)%nat ->
             ~ enough (self st) (count_at env (world st) n)) ->
  (msg_timeout (self st) <> PosInf ->
   (forall n, (0 <= lag env n)%Q) ->
   forall fuel,
     (gate_fuel (msg_timeout (self st)) <= fuel)%nat ->
     fst (status_check_loop env show_status fuel st)
     = Ok (TIMED_OUT, PyStatus)) /\
  (msg_timeout (self st) = PosInf ->
   forall fuel,
     fst (status_check_loop env show_status fuel st) = OutOfFuel).
Proof.
  intros P Hst. split.
  - intros HT Hlag fuel Hf.
    destruct (status_check_loop_total env show_status Hlag fuel st HT Hf P)
      as (g & s & st' & L & Hg).
    rewrite L. cbn [fst].
    pose proof (status_check_loop_spec _ _ _ _ _ _ L) as (_ & evs & _ & Ho).
    cbn [loop_outcome] in Ho.
    destruct Ho as (_ & [(-> & _) | (-> & -> & _)]); [|reflexivity].
    exfalso. rewrite status_check_loop_eq in L.
    destruct (while_loop env show_status fuel (gate_start env st) PyStatus
                         (loop_entry env st)) as [r st1] eqn:W.
    cbn [fst snd] in L. injection L as -> _.
    apply (while_loop_starved env show_status _ _ _ _ _) with (s := s) in W;
      [congruence|].
    cbn [loop_entry self world]. intros n Hn.
    unfold add_events, after_clock in Hn |- *. cbn [yields] in Hn.
    replace (count_at env _ n) with (count_at env (world st) n);
      [apply Hst; lia|].
    unfold count_at. cbn. lia.
  - intros HT fuel. apply status_check_loop_never_ends; assumption.
Qed.

Lemma starved_gate_times_out_witness :
  fst (status_check_loop (steady_env 0) true (gate_fuel 5)
                         (at_gate stalled_config 3))
  = Ok (TIMED_OUT, PyStatus) /\
  fst (status_check_loop (steady_env 0) true 1000
                         (at_gate (mkConfig PosInf 10 false false) 3))
  = OutOfFuel.
Proof.
  assert (H : forall m, arrived (steady_env 0) m = 0)
    by (induction m as [|m IH]; [reflexivity | cbn; rewrite IH; reflexivity]).
  split.
  - apply (starved_gate_times_out (steady_env 0) true
                                  (at_gate stalled_config 3)).
    + discriminate.
    + intros n _. unfold enough, count_at. rewrite !H. cbn. lia.
    + cbn. discriminate.
    + intros n. cbn. discriminate.
    + apply le_n.
  - apply (starved_gate_times_out
             (steady_env 0) true (at_gate (mkConfig PosInf 10 false false) 3)).
    + discriminate.
    + intros n _. unfold enough, count_at. rewrite !H. cbn. lia.
    + reflexivity.
Defined.

(** X9: the status display is started once, is given every count that fell
    short, in the order read and nothing else, and is stopped once, however
    the gate proper ends. *)
Theorem status_display_shows_each_short_count env fuel st :
  display (since (trace (world st))
                 (trace (world (snd (status_check_loop env true fuel st)))))
  = [StatusStart]
    ++ shown (self st)
             (observed (since (trace (world st))
                              (trace (world (snd (status_check_loop
                                                    env true fuel st))))))
    ++ [StatusStop].
Proof.
  destruct (while_loop_display env true fuel (gate_start env st)
                               (loop_entry env st)) as (evs & Ht & Hd & _).
  rewrite (status_check_loop_since env true fuel st evs Ht).
  rewrite !display_app, !observed_app, Hd.
  cbn [display filter is_display_event observed loop_entry self app].
  rewrite app_nil_r. reflexivity.
Qed.

(** X10: the gate sleeps once for each count that fell short, and always
    for the poll interval of 0.05 s; it never sleeps after the count that
    made it [READY] nor after the deadline. *)
Theorem gate_sleeps_once_per_short_count env show_status fuel st :
  sleep_durations
    (since (trace (world st))
           (trace (world (snd (status_check_loop env show_status fuel st)))))
  = repeat poll_interval
      (length (filter (short (self st))
                 (observed
                    (since (trace (world st))
                           (trace (world (snd (status_check_loop
                                                 env show_status fuel st)))))))).
Proof.
  destruct (while_loop_display env show_status fuel (gate_start env st)
                               (loop_entry env st)) as (evs & Ht & _ & Hs).
  rewrite (status_check_loop_since env show_status fuel st evs Ht).
  rewrite !sleep_durations_app, !observed_app, Hs.
  cbn [sleep_durations observed loop_entry self app].
  rewrite !app_nil_r. reflexivity.
Qed.

(** X11: a negative [msg_timeout], [-inf] included, is taken as it is and
    acts like zero: with a clock that does not run backwards the gate ends
    [TIMED_OUT] at its first look at the clock, without reading the
    buffer. *)
Theorem negative_timeout_times_out_at_once env show_status fuel st :
  float_ltb (msg_timeout (self st)) 0 = true ->
  (0 <= lag env (S (yields (world st))))%Q ->
  (1 <= fuel)%nat ->
  fst (status_check_loop env show_status fuel st) = Ok (TIMED_OUT, PyStatus) /\
  observed (since (trace (world st))
                  (trace (world (snd (status_check_loop env show_status fuel st)))))
  = [].
Proof.
  intros T L F. destruct fuel as [|fuel]; [lia|].
  rewrite gate_expired_at_once.
  - split; [reflexivity|].
    unfold status_stopped, loop_entry, add_events, after_clock.
    cbn [fst snd self world trace yields now current_idx].
    rewrite <- !app_assoc, since_app. reflexivity.
  - destruct (msg_timeout (self (loop_entry env st))) as [q| | |] eqn:ET;
      cbn [loop_entry self] in ET; rewrite ET in T;
      cbn [float_ltb] in T; try discriminate T.
    + rewrite (guard_finite _ _ _ q) by exact ET.
      apply Qltb_true in T. apply Qltb_false.
      unfold gate_start, loop_entry, add_events, after_clock.
      cbn [self world now yields]. cbn [yields] in L. lra.
    + apply guard_minus_infinite. exact ET.
Qed.

Lemma negative_timeout_times_out_at_once_witness :
  fst (status_check_loop still_env true 1
                         (at_gate (mkConfig (-1) 1 false false) 5))
  = Ok (TIMED_OUT, PyStatus) /\
  observed (since (trace (world (at_gate (mkConfig (-1) 1 false false) 5)))
                  (trace (world (snd (status_check_loop
                                        still_env true 1
                                        (at_gate (mkConfig (-1) 1 false false) 5))))))
  = [].
Proof.
  apply (negative_timeout_times_out_at_once
           still_env true 1%nat (at_gate (mkConfig (-1) 1 false false) 5)).
  - reflexivity.
  - vm_compute. discriminate.
  - lia.
Defined.

Lemma Forall_removelast (P : Z -> Prop) l : Forall P l -> Forall P (removelast l).
Proof.
  induction 1 as [|a l Ha Hl IH]; [constructor|].
  destruct l as [|b l]; [constructor|].
  cbn [removelast]. constructor; [exact Ha | exact IH].
Qed.

(** X12: the gate stops polling at the first count that is enough: when its
    loop is over, every count it read except the last one fell short. *)
Theorem gate_stops_at_first_sufficient_count env show_status fuel st g s st' :
  status_check_loop env show_status fuel st = (Ok (g, s), st') ->
  Forall (fun v => ~ enough (self st) v)
         (removelast (observed (since (trace (world st)) (trace (world st'))))).
Proof.
  intros H. apply status_check_loop_spec in H.
  destruct H as (_ & evs & Ht & Ho). rewrite Ht, since_app.
  rewrite !observed_app. cbn [observed app]. rewrite app_nil_r.
  cbn [loop_outcome] in Ho.
  destruct Ho as (_ & [(_ & _ & obs & v & -> & _ & Hall) | (_ & _ & Hall)]).
  - rewrite removelast_last. exact Hall.
  - apply Forall_removelast. exact Hall.
Qed.

Lemma gate_stops_at_first_sufficient_count_witness :
  Forall (fun v => ~ enough (self (at_gate (mkConfig 5 3 false false) 0)) v)
         (removelast
            (observed
               (since (trace (world (at_gate (mkConfig 5 3 false false) 0)))
                      (trace (world (snd (status_check_loop
                                            (burst_env 2 3) true 2
                                            (at_gate (mkConfig 5 3 false false) 0)))))))).
Proof.
  apply (gate_stops_at_first_sufficient_count
           (burst_env 2 3) true 2%nat (at_gate (mkConfig 5 3 false false) 0)
           READY (PyBool true)).
  vm_compute. reflexivity.
Defined.
